(** * whatsapp-bulk: the message controller

    A shallow embedding of [src/controllers/message.controller.ts]
    (handlers [sendBatchMessages], [getMessages], [getMessageStatus]) over
    the tables of the Prisma schema ([Client], [Message]).

    - JavaScript strings are sequences of UTF-16 code units ([jsstring]).
    - A handler is a computation over a [World] (the database tables, the
      [res] object, the log and the calls made to collaborators) that either
      goes on, has executed [return], or has thrown.
    - Collaborators the controller imports (fetch, the Cloudinary helpers,
      the client service) are fields of a [Collaborators] record, so that
      every theorem holds whatever they answer. *)

From Stdlib Require Import List ZArith NArith Lia Bool String Ascii.
From Stdlib Require Import DecimalString Permutation Sorted.
Import ListNotations.

Open Scope Z_scope.
Open Scope list_scope.

(** ** JavaScript strings *)

(** A string value: its UTF-16 code units. *)
Definition jsstring := list N.

(** A literal of the source, as code units. *)
Definition js (s : string) : jsstring :=
  map N_of_ascii (list_ascii_of_string s).

Definition jsstring_eqb (a b : jsstring) : bool :=
  if list_eq_dec N.eq_dec a b then true else false.

(** [Boolean(s)] for a string: only the empty string is falsy. *)
Definition truthy (s : jsstring) : bool :=
  match s with
  | [] => false
  | _ :: _ => true
  end.

(** ECMAScript WhiteSpace and LineTerminator code points, the characters
    [String.prototype.trim] removes and [parseInt] skips. *)
Definition is_js_whitespace (c : N) : bool :=
  ((9 <=? c) && (c <=? 13) ||
   (c =? 32) || (c =? 160) || (c =? 5760) ||
   ((8192 <=? c) && (c <=? 8202)) ||
   (c =? 8232) || (c =? 8233) || (c =? 8239) || (c =? 8287) ||
   (c =? 12288) || (c =? 65279))%N.

Fixpoint trimStart (s : jsstring) : jsstring :=
  match s with
  | [] => []
  | c :: s' => if is_js_whitespace c then trimStart s' else s
  end.

Definition trimEnd (s : jsstring) : jsstring :=
  rev (trimStart (rev s)).

(** [s.trim()] *)
Definition trim (s : jsstring) : jsstring :=
  trimEnd (trimStart s).

(** [s.split(sep)] for a one-character separator: always at least one piece. *)
Fixpoint split (sep : N) (s : jsstring) : list jsstring :=
  match s with
  | [] => [[]]
  | c :: s' =>
      if (c =? sep)%N then [] :: split sep s'
      else match split sep s' with
           | [] => [[c]]
           | w :: ws => (c :: w) :: ws
           end
  end.

Definition comma : N := 44.

(** ** [parseInt] *)

(** The value of a code unit as a digit of the given radix. *)
Definition digit_value (radix : N) (c : N) : option N :=
  let v :=
    (if (48 <=? c) && (c <=? 57) then Some (c - 48)
     else if (97 <=? c) && (c <=? 122) then Some (c - 87)
     else if (65 <=? c) && (c <=? 90) then Some (c - 55)
     else None)%N in
  match v with
  | Some d => if (d <? radix)%N then Some d else None
  | None => None
  end.

(** Reads the longest prefix of digits; [acc] is the value read so far and
    [seen] tells whether a digit was read. *)
Fixpoint read_digits (radix : N) (s : jsstring) (acc : N) (seen : bool)
  : option N :=
  match s with
  | [] => if seen then Some acc else None
  | c :: s' =>
      match digit_value radix c with
      | Some d => read_digits radix s' (acc * radix + d)%N true
      | None => if seen then Some acc else None
      end
  end.

(** [parseInt(s)] with no radix argument; [None] is NaN.  The result is the
    mathematical integer, which is what JavaScript computes up to 2^53; the
    rounding of larger values to a double is not modelled, and the
    properties that depend on the values read are stated within
    [paging_bound]. *)
Definition parseInt (s : jsstring) : option Z :=
  let s1 := trimStart s in
  let '(neg, s2) :=
    match s1 with
    | 45%N :: r => (true, r)
    | 43%N :: r => (false, r)
    | _ => (false, s1)
    end in
  let '(radix, s3) :=
    match s2 with
    | 48%N :: 120%N :: r => (16%N, r)
    | 48%N :: 88%N :: r => (16%N, r)
    | _ => (10%N, s2)
    end in
  match read_digits radix s3 0%N false with
  | Some n => Some (if neg then - Z.of_N n else Z.of_N n)
  | None => None
  end.

(** What a page, a limit and an offset are kept within for the properties
    that depend on their value: the 32-bit integers, which doubles hold
    exactly and the storage accepts. *)
Definition paging_bound : Z := 2147483647.

(** [parseInt(q) || d] where [q] may be undefined: NaN and 0 are falsy. *)
Definition parseInt_or (q : option jsstring) (d : Z) : Z :=
  match q with
  | None => d
  | Some s =>
      match parseInt s with
      | Some 0 => d
      | Some n => n
      | None => d
      end
  end.

(** ** Data model (prisma schema) *)

Inductive ClientStatus := INITIALIZING | CONNECTED | DISCONNECTED | LOGOUT.

Inductive MessageStatus := PENDING | SENT | FAILED.

Definition ClientStatus_eqb (a b : ClientStatus) : bool :=
  match a, b with
  | INITIALIZING, INITIALIZING | CONNECTED, CONNECTED
  | DISCONNECTED, DISCONNECTED | LOGOUT, LOGOUT => true
  | _, _ => false
  end.

Definition MessageStatus_eqb (a b : MessageStatus) : bool :=
  match a, b with
  | PENDING, PENDING | SENT, SENT | FAILED, FAILED => true
  | _, _ => false
  end.

(** Timestamps are milliseconds since the epoch. *)
Definition DateTime := Z.

Module Client.
Record t := mk {
  id : jsstring;
  userId : jsstring;
  session : option jsstring;
  status : ClientStatus;
  lastActive : option DateTime;
  lastQrCode : option jsstring;
  createdAt : DateTime;
  updatedAt : DateTime
}.
End Client.

Module Message.
Record t := mk {
  id : jsstring;
  clientId : jsstring;
  number : jsstring;
  content : jsstring;
  status : MessageStatus;
  mediaUrl : option jsstring;
  error : option jsstring;
  createdAt : DateTime
}.
End Message.

(** ** Values that cross the handler's boundary *)

(** A JavaScript [Error]: what the controller reads of it is its message. *)
Record JsError := Error { err_message : string }.

(** How a promise settles. *)
Inductive Settled (A : Type) :=
| Fulfilled (a : A)
| Rejected (e : JsError).
Arguments Fulfilled {A} a.
Arguments Rejected {A} e.

Definition Buffer := list Byte.byte.

(** The part of the multipart form named [media], as it arrives. *)
Record FilePart := {
  part_mimetype : jsstring;
  part_data : Buffer
}.

(** [req.file] once multer has stored the part in memory. *)
Record MulterFile := {
  mimetype : jsstring;
  buffer : Buffer
}.

(** The request of [POST /messages/batch]; [req_user] is [req.user?.id]. *)
Record BatchRequest := {
  req_user : option jsstring;
  body_numbers : option jsstring;
  body_content : option jsstring;
  body_mediaUrl : option jsstring;
  media_part : option FilePart;
  media_first : bool   (* the media part precedes the text fields in the body *)
}.

(** The request of [GET /messages]. *)
Record ListRequest := {
  list_user : option jsstring;
  query_page : option jsstring;
  query_limit : option jsstring;
  query_status : option MessageStatus
}.

(** The request of [GET /messages/:id]. *)
Record StatusRequest := {
  status_user : option jsstring;
  params_id : jsstring
}.

Inductive ErrorField :=
| ErrorObject (e : JsError)
| ErrorText (s : string).

Record Pagination := {
  page : Z;
  limit : Z;
  total : Z;
  totalPages : Z
}.

Inductive Data :=
| OneMessage (m : Message.t)
| MessagePage (messages : list Message.t) (pagination : Pagination).

(** The object given to [res.json]. *)
Record Body := {
  success : bool;
  message : option string;
  error : option ErrorField;
  messageIds : option (list jsstring);
  data : option Data
}.

Record Response := {
  status : Z;
  body : Body
}.


(** The runtime handle of a session: [processBatch] returns a promise, and
    the field tells how that promise settles, later. *)
Record WhatsAppInstance := {
  instance_of : jsstring;
  processBatch : list Message.t -> Settled unit
}.

(** What the controller imports and does not define. *)
Record Collaborators := {
  fetch : jsstring -> Settled (bool * Settled Buffer);
  uploadToCloudinary : Buffer -> Settled jsstring;
  getOptimizedUrl : jsstring -> jsstring;
  getWhatsAppInstance : jsstring -> option WhatsAppInstance;
  uuid : nat -> jsstring
}.

(** ** The world a handler runs in *)

Inductive Event :=
| LoggerError (msg : string) (err : option JsError)
| LoggerInfo (msg : string)
| FetchCall (url : jsstring)
| CloudinaryUpload (bytes : Buffer)
| CreateMessagesCall (clientId : jsstring) (numbers : list jsstring)
                     (content : jsstring) (media : option jsstring)
| OnProgress (key : jsstring)
| ProcessBatchCall (key : jsstring) (records : list Message.t).

(** The callbacks the controller registers, as data. *)
Inductive Callback :=
| LogProcessingError   (* (error) => logger.error("Message processing error:", error) *)
| LogProgress.         (* (progress) => logger.info(`Batch ...`) *)

(** A promise still pending with the handler attached by [.catch]. *)
Record Pending := {
  settles : Settled unit;
  onRejected : Callback
}.

Record World := {
  clients : list Client.t;
  messages : list Message.t;
  uuids_used : nat;
  now : DateTime;
  sent : option Response;                  (* what [res] has sent *)
  trace : list Event;                      (* newest first *)
  listeners : list (jsstring * Callback);  (* "progress" listeners, by session *)
  pending : list Pending;
  tie_order : Message.t -> Message.t -> bool
    (* which of two rows of equal [createdAt] the database lists first *)
}.

Definition emit (e : Event) (w : World) : World :=
  {| clients := clients w; messages := messages w;
     uuids_used := uuids_used w; now := now w; sent := sent w;
     trace := e :: trace w;
     listeners := listeners w; pending := pending w;
     tie_order := tie_order w |}.

Definition set_sent (r : Response) (w : World) : World :=
  {| clients := clients w; messages := messages w;
     uuids_used := uuids_used w; now := now w; sent := Some r;
     trace := trace w;
     listeners := listeners w; pending := pending w;
     tie_order := tie_order w |}.

Definition insert_messages (ms : list Message.t) (w : World) : World :=
  {| clients := clients w; messages := messages w ++ ms;
     uuids_used := (uuids_used w + List.length ms)%nat; now := now w;
     sent := sent w; trace := trace w;
     listeners := listeners w; pending := pending w;
     tie_order := tie_order w |}.

Definition add_listener (key : jsstring) (cb : Callback) (w : World) : World :=
  {| clients := clients w; messages := messages w;
     uuids_used := uuids_used w; now := now w; sent := sent w;
     trace := trace w;
     listeners := listeners w ++ [(key, cb)]; pending := pending w;
     tie_order := tie_order w |}.

Definition add_pending (p : Pending) (w : World) : World :=
  {| clients := clients w; messages := messages w;
     uuids_used := uuids_used w; now := now w; sent := sent w;
     trace := trace w;
     listeners := listeners w; pending := pending w ++ [p];
     tie_order := tie_order w |}.

Definition clear_pending (w : World) : World :=
  {| clients := clients w; messages := messages w;
     uuids_used := uuids_used w; now := now w; sent := sent w;
     trace := trace w;
     listeners := listeners w; pending := [];
     tie_order := tie_order w |}.

(** ** The handler monad: state, [return] and [throw] *)

Inductive Outcome (A : Type) :=
| Next (a : A)
| Returned
| Thrown (e : JsError).
Arguments Next {A} a.
Arguments Returned {A}.
Arguments Thrown {A} e.

Definition Handler (A : Type) := World -> Outcome A * World.

Definition pure {A} (a : A) : Handler A := fun w => (Next a, w).

Definition bind {A B} (m : Handler A) (k : A -> Handler B) : Handler B :=
  fun w =>
    match m w with
    | (Next a, w') => k a w'
    | (Returned, w') => (Returned, w')
    | (Thrown e, w') => (Thrown e, w')
    end.

Notation "x <- m ;; k" := (bind m (fun x => k))
  (at level 61, m at next level, right associativity).
Notation "m ;;; k" := (bind m (fun _ => k))
  (at level 61, right associativity).

(** [return;] *)
Definition return_ {A} : Handler A := fun w => (Returned, w).

(** [throw e] *)
Definition throw {A} (e : JsError) : Handler A := fun w => (Thrown e, w).

(** [try { m } catch (error) { h error }] *)
Definition try_catch {A} (m : Handler A) (h : JsError -> Handler A)
  : Handler A :=
  fun w =>
    match m w with
    | (Thrown e, w') => h e w'
    | r => r
    end.

(** [await p] *)
Definition await {A} (p : Settled A) : Handler A :=
  match p with
  | Fulfilled a => pure a
  | Rejected e => throw e
  end.

Definition log (e : Event) : Handler unit := fun w => (Next tt, emit e w).

(** [res.status(code).json(body)] *)
Definition res_json (code : Z) (b : Body) : Handler unit :=
  fun w => (Next tt, set_sent {| status := code; body := b |} w).

(** [if (c) { m }] *)
Definition when (c : bool) (m : Handler unit) : Handler unit :=
  if c then m else pure tt.

(** The failure envelope [{ success: false, message }]. *)
Definition failure (msg : string) : Body :=
  {| success := false; message := Some msg; error := None;
     messageIds := None; data := None |}.

Definition failure_with (msg : string) (e : ErrorField) : Body :=
  {| success := false; message := Some msg; error := Some e;
     messageIds := None; data := None |}.

(** ** The multer upload (controller lines 9-30) *)

Definition allowedMimes : list jsstring :=
  [js "image/jpeg"; js "image/png"; js "image/gif"; js "application/pdf"].

(** [fileFilter]: the error it gives to [cb], if any. *)
Definition fileFilter (file : FilePart) : option JsError :=
  if existsb (jsstring_eqb (part_mimetype file)) allowedMimes then None
  else Some (Error "Invalid file type. Only images and PDF are allowed.").

(** [limits.fileSize], in bytes. *)
Definition fileSize : N := 16 * 1024 * 1024.

(** The size a text field may not reach (multer's default [fieldSize]). *)
Definition fieldSize : N := 1024 * 1024.

Inductive UploadError :=
| MulterError (msg : string)
| PlainError (e : JsError).

(** The bytes a code unit takes in the UTF-8 body (a surrogate is half of a
    four-byte sequence). *)
Definition utf8_bytes (c : N) : N :=
  (if c <? 128 then 1
   else if c <? 2048 then 2
   else if (55296 <=? c) && (c <=? 57343) then 2
   else 3)%N.

Definition byte_length (s : jsstring) : N :=
  fold_right (fun c n => (utf8_bytes c + n)%N) 0%N s.

Definition field_too_long (f : option jsstring) : bool :=
  match f with
  | Some s => (fieldSize <=? byte_length s)%N
  | None => false
  end.

(** No text field of the form reaches [fieldSize]. *)
Definition fields_within_limit (req : BatchRequest) : bool :=
  negb (field_too_long (body_numbers req)
        || field_too_long (body_content req)
        || field_too_long (body_mediaUrl req)).

(** What multer objects to in the file part: the filter runs on the part's
    headers, the size limit while the part is read; a file that reaches
    [fileSize] is refused. *)
Definition file_error (p : FilePart) : option UploadError :=
  match fileFilter p with
  | Some e => Some (PlainError e)
  | None =>
      if (fileSize <=? N.of_nat (List.length (part_data p)))%N
      then Some (MulterError "File too large")
      else None
  end.

(** [multer({ storage, fileFilter, limits }).single("media")]: the error it
    calls back with, or [req.file].  The parts are read in the order of the
    body and the first error ends the upload. *)
Definition upload (req : BatchRequest) : UploadError + option MulterFile :=
  let field_error :=
    if fields_within_limit req then None
    else Some (MulterError "Field value too long") in
  let file_err :=
    match media_part req with
    | Some p => file_error p
    | None => None
    end in
  match file_err, field_error with
  | None, None =>
      inr (option_map
             (fun p => {| mimetype := part_mimetype p;
                          buffer := part_data p |})
             (media_part req))
  | Some e, None => inl e
  | None, Some e => inl e
  | Some fe, Some te => inl (if media_first req then fe else te)
  end.

(** ** Storage collaborator (prisma) *)

(** The first session of a user, in table order. *)
Definition first_client (userId : jsstring) (w : World) : option Client.t :=
  find (fun c => jsstring_eqb (Client.userId c) userId) (clients w).

(** [prisma.client.findFirst({ where: { userId } })] *)
Definition findFirst_client (userId : jsstring) : Handler (option Client.t) :=
  fun w => (Next (first_client userId w), w).

(** [where: { clientId, ...(status && { status }) }] *)
Definition where_messages (clientId : jsstring) (st : option MessageStatus)
                          (m : Message.t) : bool :=
  jsstring_eqb (Message.clientId m) clientId &&
  match st with
  | Some s => MessageStatus_eqb (Message.status m) s
  | None => true
  end.

(** [x] is listed before [m]: it is newer, or as old and the database puts
    it first. *)
Definition listed_before (tie : Message.t -> Message.t -> bool)
    (x m : Message.t) : bool :=
  (Message.createdAt m <? Message.createdAt x)
  || ((Message.createdAt x =? Message.createdAt m) && tie x m).

(** [orderBy: { createdAt: "desc" }]; the order among rows of equal time is
    the database's. *)
Fixpoint insert_desc (tie : Message.t -> Message.t -> bool)
    (m : Message.t) (l : list Message.t) : list Message.t :=
  match l with
  | [] => [m]
  | x :: l' =>
      if listed_before tie x m
      then x :: insert_desc tie m l'
      else m :: l
  end.

Fixpoint orderBy_createdAt_desc (tie : Message.t -> Message.t -> bool)
    (l : list Message.t) : list Message.t :=
  match l with
  | [] => []
  | m :: l' => insert_desc tie m (orderBy_createdAt_desc tie l')
  end.

(** The order of the listing: no row is older than one before it. *)
Definition newer_first (a b : Message.t) : Prop :=
  Message.createdAt b <= Message.createdAt a.

(** [skip] and [take]: a negative [skip] is refused, a negative [take] counts
    from the end of the ordered rows. *)
Definition paginate {A} (skip take : Z) (l : list A) : Settled (list A) :=
  if skip <? 0
  then Rejected (Error "Invalid value for skip argument")
  else if 0 <=? take
  then Fulfilled (firstn (Z.to_nat take) (skipn (Z.to_nat skip) l))
  else Fulfilled
         (rev (firstn (Z.to_nat (- take)) (skipn (Z.to_nat skip) (rev l)))).

Definition findMany (clientId : jsstring) (st : option MessageStatus)
                    (skip take : Z) (w : World) : Settled (list Message.t) :=
  paginate skip take
    (orderBy_createdAt_desc (tie_order w)
       (filter (where_messages clientId st) (messages w))).

Definition count (clientId : jsstring) (st : option MessageStatus)
                 (w : World) : Z :=
  Z.of_nat (List.length (filter (where_messages clientId st) (messages w))).

(** [prisma.$transaction([findMany, count])]: both read the same tables. *)
Definition transaction_findMany_count
    (clientId : jsstring) (st : option MessageStatus) (skip take : Z)
  : Handler (list Message.t * Z) :=
  fun w =>
    match findMany clientId st skip take w with
    | Fulfilled ms => (Next (ms, count clientId st w), w)
    | Rejected e => (Thrown e, w)
    end.

(** [findFirst({ where: { id, client: { userId } } })] *)
Definition findFirst_message (messageId userId : jsstring)
  : Handler (option Message.t) :=
  fun w =>
    (Next
       (find
          (fun m =>
             jsstring_eqb (Message.id m) messageId &&
             existsb
               (fun c =>
                  jsstring_eqb (Client.id c) (Message.clientId m) &&
                  jsstring_eqb (Client.userId c) userId)
               (clients w))
          (messages w)),
     w).

(** The rows [createMessages] inserts, the [n]-th generated id first. *)
Fixpoint new_records (E : Collaborators) (clientId content : jsstring)
    (media : option jsstring) (t : DateTime) (n : nat)
    (numbers : list jsstring) : list Message.t :=
  match numbers with
  | [] => []
  | x :: rest =>
      {| Message.id := uuid E n;
         Message.clientId := clientId;
         Message.number := x;
         Message.content := content;
         Message.status := PENDING;
         Message.mediaUrl := media;
         Message.error := None;
         Message.createdAt := t |}
      :: new_records E clientId content media t (S n) rest
  end.

(** Modelled from the spec: [messageRepository.createMessages], whose file
    (src/repositories/message.repository.ts) is not among the sources.  The
    spec (4.2): exactly one Message record per recipient is persisted; all
    records share content and mediaUrl, each gets a generated id, all start
    in PENDING; the created records are returned in the order of the input
    recipient sequence.  The call is taken to succeed: a rejection, which
    the handler's outer catch would answer with a 500, is not modelled. *)
Definition createMessages (E : Collaborators) (clientId : jsstring)
    (numbers : list jsstring) (content : jsstring) (media : option jsstring)
  : Handler (list Message.t) :=
  fun w =>
    let records :=
      new_records E clientId content media (now w) (uuids_used w) numbers in
    (Next records,
     insert_messages records
       (emit (CreateMessagesCall clientId numbers content media) w)).

(** ** Helpers of the handlers *)

(** [req.user?.id] when it is truthy. *)
Definition authenticated (u : option jsstring) : option jsstring :=
  match u with
  | Some userId => if truthy userId then Some userId else None
  | None => None
  end.

Definition decimal (n : nat) : string :=
  NilZero.string_of_uint (Nat.to_uint n).

(** [Math.ceil(a / b)] on integers, [b] not zero. *)
Definition Math_ceil_div (a b : Z) : Z := - ((- a) / b).

(** The local [media]: a Buffer or a string. *)
Inductive Media :=
| BufferMedia (b : Buffer)
| StringMedia (s : jsstring).

(** [if (media)]: an object is truthy, a string when it is not empty. *)
Definition media_truthy (m : Media) : bool :=
  match m with
  | BufferMedia _ => true
  | StringMedia s => truthy s
  end.

(** Lines 38-47: the upload wrapped in a promise and awaited. *)
Definition await_upload (req : BatchRequest) : Handler (option MulterFile) :=
  match upload req with
  | inl (MulterError msg) => throw (Error ("Upload error: " ++ msg))
  | inl (PlainError e) => throw (Error (err_message e))
  | inr file => pure file
  end.

(** Lines 56-57: [numbers]. *)
Definition parse_numbers (req : BatchRequest) : list jsstring :=
  match body_numbers req with
  | Some s => filter truthy (split comma s)
  | None => []
  end.

(** [String(req.body.content || "")] *)
Definition content_field (req : BatchRequest) : jsstring :=
  match body_content req with
  | Some s => s
  | None => []
  end.

(** Line 58: [content]. *)
Definition parse_content (req : BatchRequest) : jsstring :=
  trim (content_field req).

(** Lines 61-68: [media]. *)
Definition select_media (file : option MulterFile) (mediaUrl : option jsstring)
  : option Media :=
  match file with
  | Some f => Some (BufferMedia (buffer f))
  | None =>
      match mediaUrl with
      | Some u => if truthy u then Some (StringMedia u) else None
      | None => None
      end
  end.

(** The request carries a [mediaUrl] field that is truthy. *)
Definition supplies_url (req : BatchRequest) : bool :=
  match body_mediaUrl req with
  | Some u => truthy u
  | None => false
  end.

(** [uploadToCloudinary(b)] then [getOptimizedUrl(uploadResult.public_id)]. *)
Definition store (E : Collaborators) (b : Buffer) : Handler (option jsstring) :=
  log (CloudinaryUpload b) ;;;
  public_id <- await (uploadToCloudinary E b) ;;
  pure (Some (getOptimizedUrl E public_id)).

(** Lines 106-128: [cloudinaryUrl]. *)
Definition process_media (E : Collaborators) (media : option Media)
  : Handler (option jsstring) :=
  match media with
  | None => pure None
  | Some m =>
      if media_truthy m then
        try_catch
          (match m with
           | BufferMedia b => store E b
           | StringMedia url =>
               log (FetchCall url) ;;;
               response <- await (fetch E url) ;;
               (if negb (fst response)
                then throw (Error "Failed to fetch media from URL")
                else
                  bytes <- await (snd response) ;;
                  store E bytes)
           end)
          (fun error =>
             log (LoggerError "Failed to process media:" (Some error)) ;;;
             res_json 400
               (failure_with "Failed to process media" (ErrorObject error)) ;;;
             return_)
      else pure None
  end.

(** Lines 139-149: the listener, then [processBatch(...).catch(...)], which
    is not awaited: the promise stays pending with its handler. *)
Definition dispatch (inst : WhatsAppInstance) (records : list Message.t)
  : Handler unit :=
  fun w =>
    let w1 := add_listener (instance_of inst) LogProgress
                (emit (OnProgress (instance_of inst)) w) in
    let w2 := add_pending {| settles := processBatch inst records;
                             onRejected := LogProcessingError |}
                (emit (ProcessBatchCall (instance_of inst) records) w1) in
    (Next tt, w2).

(** ** The handlers *)

Definition invalid_format : string :=
  "Invalid format: numbers array is required and content cannot be empty".

Definition accepted (numbers : list jsstring) (records : list Message.t)
  : Body :=
  {| success := true;
     message := Some ("Processing messages for "
                      ++ decimal (List.length numbers)
                      ++ " recipients")%string;
     error := None;
     messageIds := Some (map Message.id records);
     data := None |}.

(** [sendBatchMessages] (lines 32-164). *)
Definition sendBatchMessages (E : Collaborators) (req : BatchRequest)
  : Handler unit :=
  try_catch
    (file <- await_upload req ;;
     match authenticated (req_user req) with
     | None => res_json 401 (failure "Unauthorized") ;;; return_
     | Some userId =>
         let numbers := parse_numbers req in
         let content := parse_content req in
         let media := select_media file (body_mediaUrl req) in
         when ((List.length numbers =? 0)%nat || negb (truthy content))
           (log (LoggerError invalid_format None) ;;;
            res_json 400 (failure invalid_format) ;;;
            return_) ;;;
         existingClient <- findFirst_client userId ;;
         match existingClient with
         | None =>
             res_json 400 (failure "WhatsApp client not connected") ;;;
             return_
         | Some existingClient =>
             if negb (ClientStatus_eqb (Client.status existingClient) CONNECTED)
             then
               res_json 400 (failure "WhatsApp client not connected") ;;;
               return_
             else
               match getWhatsAppInstance E (Client.id existingClient) with
               | None =>
                   log (LoggerError "WhatsApp client not initialized" None) ;;;
                   res_json 400 (failure "WhatsApp client not initialized") ;;;
                   return_
               | Some whatsappInstance =>
                   cloudinaryUrl <- process_media E media ;;
                   messageRecords <-
                     createMessages E (Client.id existingClient)
                       numbers content cloudinaryUrl ;;
                   dispatch whatsappInstance messageRecords ;;;
                   res_json 200 (accepted numbers messageRecords)
               end
         end
     end)
    (fun error =>
       log (LoggerError ("Send batch messages error: " ++ err_message error)
              None) ;;;
       res_json 500
         (failure_with "Failed to send messages"
            (ErrorText (err_message error)))).

Definition page_of (messages : list Message.t) (page limit total : Z) : Body :=
  {| success := true;
     message := None;
     error := None;
     messageIds := None;
     data := Some (MessagePage messages
                     {| page := page; limit := limit; total := total;
                        totalPages := Math_ceil_div total limit |}) |}.

(** [getMessages] (lines 166-231). *)
Definition getMessages (req : ListRequest) : Handler unit :=
  try_catch
    (match authenticated (list_user req) with
     | None => res_json 401 (failure "Unauthorized") ;;; return_
     | Some userId =>
         let page := parseInt_or (query_page req) 1 in
         let limit := parseInt_or (query_limit req) 10 in
         let status := query_status req in
         client <- findFirst_client userId ;;
         match client with
         | None => res_json 404 (failure "Client not found") ;;; return_
         | Some client =>
             r <- transaction_findMany_count (Client.id client) status
                    ((page - 1) * limit) limit ;;
             res_json 200 (page_of (fst r) page limit (snd r))
         end
     end)
    (fun error =>
       log (LoggerError ("Get messages error: " ++ err_message error) None) ;;;
       res_json 500
         (failure_with "Failed to get messages"
            (ErrorText (err_message error)))).

Definition found (m : Message.t) : Body :=
  {| success := true; message := None; error := None;
     messageIds := None; data := Some (OneMessage m) |}.

(** [getMessageStatus] (lines 233-274). *)
Definition getMessageStatus (req : StatusRequest) : Handler unit :=
  try_catch
    (match authenticated (status_user req) with
     | None => res_json 401 (failure "Unauthorized") ;;; return_
     | Some userId =>
         let messageId := params_id req in
         message <- findFirst_message messageId userId ;;
         match message with
         | None => res_json 404 (failure "Message not found") ;;; return_
         | Some message => res_json 200 (found message)
         end
     end)
    (fun error =>
       log (LoggerError ("Get message status error: " ++ err_message error)
              None) ;;;
       res_json 500
         (failure_with "Failed to get message status"
            (ErrorText (err_message error)))).

(** ** After the handler: what the event loop runs later *)

Definition run_callback (cb : Callback) (e : JsError) (w : World) : World :=
  match cb with
  | LogProcessingError =>
      emit (LoggerError "Message processing error:" (Some e)) w
  | LogProgress => w
  end.

(** A pending promise settles; a rejection runs its [.catch] handler. *)
Definition settle (p : Pending) (w : World) : World :=
  match settles p with
  | Fulfilled _ => w
  | Rejected e => run_callback (onRejected p) e w
  end.

(** All the pending promises settle, oldest first. *)
Definition settle_pending (w : World) : World :=
  fold_left (fun w' p => settle p w') (pending w) (clear_pending w).



(** The world a handler leaves. *)
Definition run (h : Handler unit) (w : World) : World := snd (h w).

(** ** Reading a world *)

Definition is_upload (e : Event) : bool :=
  match e with
  | CloudinaryUpload _ => true
  | _ => false
  end.

Definition is_fetch (e : Event) : bool :=
  match e with
  | FetchCall _ => true
  | _ => false
  end.

Definition is_create (e : Event) : bool :=
  match e with
  | CreateMessagesCall _ _ _ _ => true
  | _ => false
  end.

Definition is_dispatch (e : Event) : bool :=
  match e with
  | ProcessBatchCall _ _ => true
  | _ => false
  end.

(** How many calls of a kind a trace holds. *)
Definition calls (k : Event -> bool) (w : World) : nat :=
  List.length (filter k (trace w)).

Definition status_sent (w : World) : option Z :=
  option_map status (sent w).

Definition message_sent (w : World) : option string :=
  match sent w with
  | Some r => message (body r)
  | None => None
  end.

(** ** A concrete deployment, for the examples *)

Module Scenario.

Definition alice : jsstring := js "user-a".
Definition bob : jsstring := js "user-b".

Definition session_of (cid uid : string) (st : ClientStatus) : Client.t :=
  {| Client.id := js cid; Client.userId := js uid;
     Client.session := None; Client.status := st;
     Client.lastActive := None; Client.lastQrCode := None;
     Client.createdAt := 0; Client.updatedAt := 0 |}.

Definition row (mid cid : string) (st : MessageStatus) (t : DateTime)
  : Message.t :=
  {| Message.id := js mid; Message.clientId := js cid;
     Message.number := js "1555000111"; Message.content := js "Hello";
     Message.status := st; Message.mediaUrl := None;
     Message.error := None; Message.createdAt := t |}.

(** An instance whose batch fails after the response. *)
Definition failing_instance (key : jsstring) : WhatsAppInstance :=
  {| instance_of := key;
     processBatch := fun _ => Rejected (Error "socket closed") |}.

(** Only alice's session has a runtime handle; the URL ["http://ok"] is
    served, every other one answers with an error status. *)
Definition E : Collaborators :=
  {| fetch := fun url =>
       Fulfilled (jsstring_eqb url (js "http://ok"), Fulfilled []);
     uploadToCloudinary := fun _ => Fulfilled (js "pid");
     getOptimizedUrl := fun pid => js "https://cdn/" ++ pid;
     getWhatsAppInstance := fun key =>
       if jsstring_eqb key (js "client-a")
       then Some (failing_instance key) else None;
     uuid := fun n => js "m" ++ js (decimal n) |}.

Definition world : World :=
  {| clients := [session_of "client-a" "user-a" CONNECTED;
                 session_of "client-b" "user-b" DISCONNECTED];
     messages := [row "old-1" "client-a" SENT 10;
                  row "old-2" "client-b" FAILED 20];
     uuids_used := 0; now := 1000; sent := None; trace := [];
     listeners := []; pending := [];
   tie_order := fun _ _ => true |}.

Definition request (user : option jsstring) (numbers content : string)
    (mediaUrl : option jsstring) (part : option FilePart) : BatchRequest :=
  {| req_user := user; body_numbers := Some (js numbers);
     body_content := Some (js content); body_mediaUrl := mediaUrl;
     media_part := part; media_first := true |}.

Definition png : FilePart :=
  {| part_mimetype := js "image/png"; part_data := [Byte.x89; Byte.x50] |}.


(** The spec's scenario: two recipients, "Hello", no media. *)
Definition hello : BatchRequest :=
  request (Some alice) "1555000111,1555000222" "Hello" None None.

Definition created (mid number : string) : Message.t :=
  {| Message.id := js mid; Message.clientId := js "client-a";
     Message.number := js number; Message.content := js "Hello";
     Message.status := PENDING; Message.mediaUrl := None;
     Message.error := None; Message.createdAt := 1000 |}.

(** Alice's session with [n] messages, created one per millisecond; the
    newest is at the head of the table. *)
Fixpoint rows (n : nat) : list Message.t :=
  match n with
  | O => []
  | S k => row ("r" ++ decimal n) "client-a" SENT (Z.of_nat n) :: rows k
  end.

Definition world25 : World :=
  {| clients := clients world;
     messages := row "old-2" "client-b" FAILED 20 :: rows 25;
     uuids_used := 25; now := 1000; sent := None; trace := [];
     listeners := []; pending := [];
   tie_order := fun _ _ => true |}.

Definition second_page : ListRequest :=
  {| list_user := Some alice; query_page := Some (js "2");
     query_limit := Some (js "10"); query_status := None |}.

(** Bob asks for a message of alice's session. *)
Definition bob_asks : StatusRequest :=
  {| status_user := Some bob; params_id := js "old-1" |}.

Definition both_media : BatchRequest :=
  request (Some alice) "1555000111" "Hello" (Some (js "http://gone"))
    (Some png).

(** The deployment with the media storage refusing every upload. *)
Definition storage_down : Collaborators :=
  {| fetch := fetch E;
     uploadToCloudinary := fun _ => Rejected (Error "storage down");
     getOptimizedUrl := getOptimizedUrl E;
     getWhatsAppInstance := getWhatsAppInstance E;
     uuid := uuid E |}.

Definition with_url : BatchRequest :=
  request (Some alice) "1555000111" "Hello" (Some (js "http://ok")) None.

(** Alice asks for a message of her own session. *)
Definition alice_asks : StatusRequest :=
  {| status_user := Some alice; params_id := js "old-1" |}.

(** A user with no session at all. *)
Definition carol : jsstring := js "user-c".

(** The tables of [world25], the database now choosing the other way among
    rows of equal time. *)
Definition world25_reordered : World :=
  {| clients := clients world25; messages := messages world25;
     uuids_used := uuids_used world25; now := now world25;
     sent := None; trace := []; listeners := []; pending := [];
     tie_order := fun _ _ => false |}.

End Scenario.

(** ** Outcomes of the media step *)

Definition media_failure (e : JsError) : Response :=
  {| status := 400;
     body := failure_with "Failed to process media" (ErrorObject e) |}.

(** The world in which the media step gives up. *)
Definition media_failed (e : JsError) (w : World) : World :=
  set_sent (media_failure e)
    (emit (LoggerError "Failed to process media:" (Some e)) w).

(** ** Outcomes of [sendBatchMessages] *)

(** Line 70: [numbers.length === 0 || !content]. *)
Definition invalid_input (req : BatchRequest) : bool :=
  (List.length (parse_numbers req) =? 0)%nat
  || negb (truthy (parse_content req)).

(** The message of the error the upload promise rejects with. *)
Definition upload_error_message (err : UploadError) : string :=
  match err with
  | MulterError msg => "Upload error: " ++ msg
  | PlainError e => err_message e
  end.

Definition refused (code : Z) (msg : string) : Response :=
  {| status := code; body := failure msg |}.

Definition send_failed (msg : string) : Response :=
  {| status := 500;
     body := failure_with "Failed to send messages" (ErrorText msg) |}.

(** The world of the outer [catch]. *)
Definition send_crashed (msg : string) (w : World) : World :=
  set_sent (send_failed msg)
    (emit (LoggerError ("Send batch messages error: " ++ msg) None) w).

(** The session is ready: connected, with a runtime handle. *)
Definition ready (E : Collaborators) (userId : jsstring) (w : World)
  : option (Client.t * WhatsAppInstance) :=
  match first_client userId w with
  | Some c =>
      if ClientStatus_eqb (Client.status c) CONNECTED
      then match getWhatsAppInstance E (Client.id c) with
           | Some inst => Some (c, inst)
           | None => None
           end
      else None
  | None => None
  end.

(** The world after the records are created, the batch is handed over and
    the acknowledgement is sent. *)
Definition accepted_world (E : Collaborators) (c : Client.t)
    (inst : WhatsAppInstance) (numbers : list jsstring) (content : jsstring)
    (url : option jsstring) (w : World) : World :=
  let records :=
    new_records E (Client.id c) content url (now w) (uuids_used w) numbers in
  set_sent {| status := 200; body := accepted numbers records |}
    (run (dispatch inst records)
       (snd (createMessages E (Client.id c) numbers content url w))).

(** ** Reading a response *)

(** The page a listing response carries. *)
Definition page_sent (w : World) : option (list Message.t * Pagination) :=
  match sent w with
  | Some r =>
      match data (body r) with
      | Some (MessagePage ms pg) => Some (ms, pg)
      | _ => None
      end
  | None => None
  end.

(** The record a status response carries. *)
Definition record_sent (w : World) : option Message.t :=
  match sent w with
  | Some r =>
      match data (body r) with
      | Some (OneMessage m) => Some m
      | _ => None
      end
  | None => None
  end.

(** The message belongs to a session of the user. *)
Definition owned_by (w : World) (userId : jsstring) (m : Message.t) : Prop :=
  exists c,
    In c (clients w) /\
    Client.id c = Message.clientId m /\
    Client.userId c = userId.


(** How many ["progress"] listeners an instance carries. *)
Definition listens_to (key : jsstring) (l : jsstring * Callback) : bool :=
  jsstring_eqb (fst l) key &&
  match snd l with
  | LogProgress => true
  | LogProcessingError => false
  end.

Definition progress_listeners (key : jsstring) (w : World) : nat :=
  List.length (filter (listens_to key) (listeners w)).

(** The [i]-th page request of a user. *)
Definition list_request (user : option jsstring) (page limit : option jsstring)
    (st : option MessageStatus) : ListRequest :=
  {| list_user := user; query_page := page; query_limit := limit;
     query_status := st |}.

(** The world of the outer [catch] of [getMessages]. *)
Definition list_crashed (e : JsError) (w : World) : World :=
  set_sent
    {| status := 500;
       body := failure_with "Failed to get messages"
                 (ErrorText (err_message e)) |}
    (emit (LoggerError ("Get messages error: " ++ err_message e) None) w).

(** * Properties *)

(** ** Strings *)

Lemma jsstring_eqb_eq (a b : jsstring) : jsstring_eqb a b = true <-> a = b.
Proof.
  unfold jsstring_eqb. destruct (list_eq_dec N.eq_dec a b); split; congruence.
Qed.

Lemma jsstring_eqb_neq (a b : jsstring) : jsstring_eqb a b = false <-> a <> b.
Proof.
  unfold jsstring_eqb. destruct (list_eq_dec N.eq_dec a b); split; congruence.
Qed.

Lemma jsstring_eqb_refl (a : jsstring) : jsstring_eqb a a = true.
Proof. now apply jsstring_eqb_eq. Qed.

Lemma truthy_false (s : jsstring) : truthy s = false <-> s = [].
Proof. destruct s; simpl; split; congruence. Qed.

Lemma trimStart_nil (s : jsstring) :
  trimStart s = [] <-> forallb is_js_whitespace s = true.
Proof.
  induction s as [|c s IH]; simpl.
  - tauto.
  - destruct (is_js_whitespace c); simpl.
    + exact IH.
    + split; discriminate.
Qed.

(** What [trimStart] leaves is blank only if nothing is left. *)
Lemma trimStart_blank (s : jsstring) :
  forallb is_js_whitespace (trimStart s) = true -> trimStart s = [].
Proof.
  induction s as [|c s IH]; simpl; trivial.
  destruct (is_js_whitespace c) eqn:Hc; trivial.
  simpl. rewrite Hc. discriminate.
Qed.

Lemma forallb_rev {A} (f : A -> bool) (l : list A) :
  forallb f (rev l) = forallb f l.
Proof.
  induction l as [|x l IH]; simpl; trivial.
  rewrite forallb_app, IH. simpl. rewrite andb_true_r. apply andb_comm.
Qed.

Lemma trimEnd_nil (s : jsstring) :
  trimEnd s = [] <-> forallb is_js_whitespace s = true.
Proof.
  unfold trimEnd. rewrite <- (forallb_rev _ s), <- trimStart_nil.
  split; intros H.
  - apply (f_equal (@rev N)) in H. now rewrite rev_involutive in H.
  - now rewrite H.
Qed.

(** [trim] gives the empty string exactly on the strings that are empty or
    made of white space only. *)
Lemma trim_nil (s : jsstring) :
  trim s = [] <-> forallb is_js_whitespace s = true.
Proof.
  unfold trim. rewrite trimEnd_nil. split; intros H.
  - apply trimStart_nil. now apply trimStart_blank.
  - apply trimStart_nil in H. now rewrite H.
Qed.

(** ** Ordering and paging *)

Lemma insert_desc_perm (tie : Message.t -> Message.t -> bool)
    (m : Message.t) (l : list Message.t) :
  Permutation (m :: l) (insert_desc tie m l).
Proof.
  induction l as [|x l IH]; simpl.
  - apply Permutation_refl.
  - destruct (listed_before tie x m).
    + eapply perm_trans; [apply perm_swap|]. now apply perm_skip.
    + apply Permutation_refl.
Qed.

Lemma orderBy_perm (tie : Message.t -> Message.t -> bool)
    (l : list Message.t) :
  Permutation l (orderBy_createdAt_desc tie l).
Proof.
  induction l as [|m l IH]; simpl.
  - constructor.
  - eapply perm_trans; [apply perm_skip, IH | apply insert_desc_perm].
Qed.

Lemma listed_before_true (tie : Message.t -> Message.t -> bool)
    (x m : Message.t) :
  listed_before tie x m = true -> Message.createdAt m <= Message.createdAt x.
Proof.
  unfold listed_before. intros H.
  apply orb_true_iff in H as [H|H].
  - apply Z.ltb_lt in H. lia.
  - apply andb_true_iff in H as (H & _). apply Z.eqb_eq in H. lia.
Qed.

Lemma listed_before_false (tie : Message.t -> Message.t -> bool)
    (x m : Message.t) :
  listed_before tie x m = false -> Message.createdAt x <= Message.createdAt m.
Proof.
  unfold listed_before. intros H.
  apply orb_false_iff in H as (H & _). apply Z.ltb_ge in H. exact H.
Qed.

(** Whatever the database chooses among ties, the listing is in descending
    creation-time order. *)
Lemma insert_desc_sorted (tie : Message.t -> Message.t -> bool)
    (m : Message.t) (l : list Message.t) :
  StronglySorted newer_first l ->
  StronglySorted newer_first (insert_desc tie m l).
Proof.
  induction 1 as [|x l Hs IH Hx]; simpl.
  - repeat constructor.
  - destruct (listed_before tie x m) eqn:Hb.
    + apply listed_before_true in Hb. constructor; [exact IH|].
      apply (Permutation_Forall (insert_desc_perm tie m l)).
      constructor; [exact Hb | exact Hx].
    + apply listed_before_false in Hb. constructor.
      * now constructor.
      * constructor; [exact Hb|].
        eapply Forall_impl; [|exact Hx].
        unfold newer_first. intros y Hy. lia.
Qed.

Lemma orderBy_sorted (tie : Message.t -> Message.t -> bool)
    (l : list Message.t) :
  StronglySorted newer_first (orderBy_createdAt_desc tie l).
Proof.
  induction l as [|m l IH]; simpl.
  - constructor.
  - now apply insert_desc_sorted.
Qed.

Lemma nth_error_firstn_skipn {A} (l : list A) (s n i : nat) :
  (i < n)%nat ->
  nth_error (firstn n (skipn s l)) i = nth_error l (s + i).
Proof.
  intros Hi. rewrite nth_error_firstn.
  destruct (Nat.ltb_spec i n); [|lia].
  revert l. induction s as [|s IH]; intros l; simpl; trivial.
  destruct l as [|x l]; simpl.
  - now destruct i.
  - apply IH.
Qed.

(** [Math_ceil_div] is the ceiling of the quotient. *)
Lemma Math_ceil_div_spec (a b : Z) :
  0 < b ->
  b * (Math_ceil_div a b - 1) < a <= b * Math_ceil_div a b.
Proof.
  intros Hb. unfold Math_ceil_div.
  pose proof (Z.div_mod (- a) b ltac:(lia)) as Hdm.
  pose proof (Z.mod_pos_bound (- a) b Hb) as Hm.
  nia.
Qed.

(** ** The media step *)

Lemma store_run (E : Collaborators) (b : Buffer) (w : World) :
  store E b w =
  match uploadToCloudinary E b with
  | Fulfilled pid =>
      (Next (Some (getOptimizedUrl E pid)), emit (CloudinaryUpload b) w)
  | Rejected e => (Thrown e, emit (CloudinaryUpload b) w)
  end.
Proof.
  unfold store, bind, log, await.
  now destruct (uploadToCloudinary E b).
Qed.

Lemma process_media_none (E : Collaborators) (w : World) :
  process_media E None w = (Next None, w).
Proof. reflexivity. Qed.

Lemma process_media_buffer (E : Collaborators) (b : Buffer) (w : World) :
  process_media E (Some (BufferMedia b)) w =
  match uploadToCloudinary E b with
  | Fulfilled pid =>
      (Next (Some (getOptimizedUrl E pid)), emit (CloudinaryUpload b) w)
  | Rejected e => (Returned, media_failed e (emit (CloudinaryUpload b) w))
  end.
Proof.
  unfold process_media, try_catch, media_truthy. cbv beta iota.
  rewrite store_run.
  now destruct (uploadToCloudinary E b).
Qed.

Lemma process_media_url (E : Collaborators) (url : jsstring) (w : World) :
  truthy url = true ->
  process_media E (Some (StringMedia url)) w =
  match fetch E url with
  | Rejected e => (Returned, media_failed e (emit (FetchCall url) w))
  | Fulfilled (false, _) =>
      (Returned,
       media_failed (Error "Failed to fetch media from URL")
         (emit (FetchCall url) w))
  | Fulfilled (true, Rejected e) =>
      (Returned, media_failed e (emit (FetchCall url) w))
  | Fulfilled (true, Fulfilled bytes) =>
      match uploadToCloudinary E bytes with
      | Fulfilled pid =>
          (Next (Some (getOptimizedUrl E pid)),
           emit (CloudinaryUpload bytes) (emit (FetchCall url) w))
      | Rejected e =>
          (Returned,
           media_failed e
             (emit (CloudinaryUpload bytes) (emit (FetchCall url) w)))
      end
  end.
Proof.
  intros Hu. unfold process_media, media_truthy. rewrite Hu.
  unfold try_catch, bind, log, await.
  destruct (fetch E url) as [[[|] [bytes|e]]|e]; simpl; trivial.
  unfold store, bind, log, await.
  now destruct (uploadToCloudinary E bytes).
Qed.

(** The media step never throws past its own [catch], leaves the tables
    alone, and uploads at most once. *)
Lemma process_media_frame (E : Collaborators) (media : option Media)
    (w : World) :
  let r := process_media E media w in
  (forall e, fst r <> Thrown e) /\
  clients (snd r) = clients w /\
  messages (snd r) = messages w /\
  uuids_used (snd r) = uuids_used w /\
  now (snd r) = now w /\
  pending (snd r) = pending w /\
  calls is_create (snd r) = calls is_create w /\
  (calls is_upload w <= calls is_upload (snd r) <= S (calls is_upload w))%nat /\
  (forall url, fst r = Next url -> sent (snd r) = sent w) /\
  (fst r = Returned -> exists e, sent (snd r) = Some (media_failure e)).
Proof.
  destruct media as [[b|url]|].
  - rewrite process_media_buffer.
    destruct (uploadToCloudinary E b); unfold calls; simpl;
      repeat split; try congruence; try lia; eauto.
  - destruct (truthy url) eqn:Hu.
    + rewrite (process_media_url E url w Hu).
      destruct (fetch E url) as [[[|] [bytes|e]]|e];
        [destruct (uploadToCloudinary E bytes)| | | |];
        unfold calls; simpl; repeat split; try congruence; try lia; eauto.
    + unfold process_media, media_truthy. rewrite Hu.
      unfold calls; simpl; repeat split; try congruence; try lia.
  - rewrite process_media_none.
    unfold calls; simpl; repeat split; try congruence; try lia.
Qed.


(** ** The paths of [sendBatchMessages] *)

Lemma run_upload_rejected (E : Collaborators) (req : BatchRequest)
    (w : World) (err : UploadError) :
  upload req = inl err ->
  run (sendBatchMessages E req) w = send_crashed (upload_error_message err) w.
Proof.
  intros Hup. unfold run, sendBatchMessages, try_catch, bind, await_upload.
  rewrite Hup. now destruct err.
Qed.

Lemma run_unauthorized (E : Collaborators) (req : BatchRequest) (w : World)
    (file : option MulterFile) :
  upload req = inr file ->
  authenticated (req_user req) = None ->
  run (sendBatchMessages E req) w = set_sent (refused 401 "Unauthorized") w.
Proof.
  intros Hup Hu. unfold run, sendBatchMessages, try_catch, bind, await_upload.
  rewrite Hup. simpl. now rewrite Hu.
Qed.

Lemma run_invalid (E : Collaborators) (req : BatchRequest) (w : World)
    (file : option MulterFile) (userId : jsstring) :
  upload req = inr file ->
  authenticated (req_user req) = Some userId ->
  invalid_input req = true ->
  run (sendBatchMessages E req) w =
  set_sent (refused 400 invalid_format)
    (emit (LoggerError invalid_format None) w).
Proof.
  intros Hup Hu Hin. unfold invalid_input in Hin.
  unfold run, sendBatchMessages, try_catch, bind, await_upload.
  rewrite Hup. simpl. rewrite Hu. cbv zeta. now rewrite Hin.
Qed.

Lemma run_session_not_ready (E : Collaborators) (req : BatchRequest)
    (w : World) (file : option MulterFile) (userId : jsstring) :
  upload req = inr file ->
  authenticated (req_user req) = Some userId ->
  invalid_input req = false ->
  ready E userId w = None ->
  run (sendBatchMessages E req) w =
  match first_client userId w with
  | Some c =>
      if ClientStatus_eqb (Client.status c) CONNECTED
      then set_sent (refused 400 "WhatsApp client not initialized")
             (emit (LoggerError "WhatsApp client not initialized" None) w)
      else set_sent (refused 400 "WhatsApp client not connected") w
  | None => set_sent (refused 400 "WhatsApp client not connected") w
  end.
Proof.
  intros Hup Hu Hin Hr. unfold invalid_input in Hin. unfold ready in Hr.
  unfold run, sendBatchMessages, try_catch, bind, await_upload.
  rewrite Hup. simpl. rewrite Hu. cbv zeta. rewrite Hin.
  unfold findFirst_client. simpl.
  destruct (first_client userId w) as [c|]; trivial.
  destruct (ClientStatus_eqb (Client.status c) CONNECTED); trivial.
  now destruct (getWhatsAppInstance E (Client.id c)).
Qed.

Lemma run_ready (E : Collaborators) (req : BatchRequest) (w : World)
    (file : option MulterFile) (userId : jsstring) (c : Client.t)
    (inst : WhatsAppInstance) :
  upload req = inr file ->
  authenticated (req_user req) = Some userId ->
  invalid_input req = false ->
  ready E userId w = Some (c, inst) ->
  run (sendBatchMessages E req) w =
  match process_media E (select_media file (body_mediaUrl req)) w with
  | (Next url, w1) =>
      accepted_world E c inst (parse_numbers req) (parse_content req) url w1
  | (_, w1) => w1
  end.
Proof.
  intros Hup Hu Hin Hr. unfold invalid_input in Hin. unfold ready in Hr.
  pose proof (process_media_frame E (select_media file (body_mediaUrl req)) w)
    as (Hthrow & _).
  unfold run, sendBatchMessages, try_catch, bind, await_upload.
  rewrite Hup. simpl. rewrite Hu. cbv zeta. rewrite Hin.
  unfold findFirst_client. simpl.
  destruct (first_client userId w) as [c'|]; [|discriminate].
  destruct (ClientStatus_eqb (Client.status c') CONNECTED); [|discriminate].
  simpl.
  destruct (getWhatsAppInstance E (Client.id c')) as [inst'|]; [|discriminate].
  injection Hr as -> ->.
  destruct (process_media E (select_media file (body_mediaUrl req)) w)
    as [[url| |e] w1]; simpl; trivial.
  now elim (Hthrow e).
Qed.

(** What the accepted path adds to a world. *)
Lemma accepted_world_frame (E : Collaborators) (c : Client.t)
    (inst : WhatsAppInstance) (numbers : list jsstring) (content : jsstring)
    (url : option jsstring) (w : World) :
  let records :=
    new_records E (Client.id c) content url (now w) (uuids_used w) numbers in
  let w' := accepted_world E c inst numbers content url w in
  messages w' = messages w ++ records /\
  sent w' = Some {| status := 200; body := accepted numbers records |} /\
  trace w' =
    [ProcessBatchCall (instance_of inst) records;
     OnProgress (instance_of inst);
     CreateMessagesCall (Client.id c) numbers content url] ++ trace w /\
  pending w' = pending w ++ [{| settles := processBatch inst records;
                                onRejected := LogProcessingError |}].
Proof. repeat split. Qed.

Lemma new_records_spec (E : Collaborators) (clientId content : jsstring)
    (media : option jsstring) (t : DateTime) (numbers : list jsstring) :
  forall n,
    Forall2
      (fun number m =>
         Message.number m = number /\
         Message.clientId m = clientId /\
         Message.status m = PENDING /\
         Message.content m = content /\
         Message.mediaUrl m = media /\
         Message.error m = None)
      numbers (new_records E clientId content media t n numbers).
Proof.
  induction numbers as [|x rest IH]; intros n; simpl; constructor.
  - simpl. repeat split.
  - apply IH.
Qed.


Lemma invalid_input_false (req : BatchRequest) :
  invalid_input req = false <->
  parse_numbers req <> [] /\ parse_content req <> [].
Proof.
  unfold invalid_input. rewrite orb_false_iff, negb_false_iff.
  destruct (parse_numbers req), (parse_content req); simpl;
    intuition congruence.
Qed.

Lemma invalid_input_true (req : BatchRequest) :
  invalid_input req = true <->
  parse_numbers req = [] \/
  forallb is_js_whitespace (content_field req) = true.
Proof.
  unfold invalid_input, parse_content. rewrite <- trim_nil.
  rewrite orb_true_iff, negb_true_iff, truthy_false.
  destruct (parse_numbers req); simpl; intuition congruence.
Qed.

(** Splits a run of [sendBatchMessages] along the checks of the handler, in
    their order, and rewrites the run on each path. *)
Ltac batch_paths E req w :=
  let err := fresh "err" in
  let file := fresh "file" in
  let userId := fresh "userId" in
  let c := fresh "c" in
  let inst := fresh "inst" in
  let Hup := fresh "Hup" in
  let Hu := fresh "Hu" in
  let Hin := fresh "Hin" in
  let Hr := fresh "Hr" in
  destruct (upload req) as [err|file] eqn:Hup;
  [ rewrite (run_upload_rejected E req w err Hup)
  | destruct (authenticated (req_user req)) as [userId|] eqn:Hu;
    [ destruct (invalid_input req) eqn:Hin;
      [ rewrite (run_invalid E req w file userId Hup Hu Hin)
      | destruct (ready E userId w) as [[c inst]|] eqn:Hr;
        [ rewrite (run_ready E req w file userId c inst Hup Hu Hin Hr)
        | rewrite (run_session_not_ready E req w file userId Hup Hu Hin Hr) ] ]
    | rewrite (run_unauthorized E req w file Hup Hu) ] ].

(** C1: A request with a non-empty recipient list and non-empty content
    that passes the upload, session and media checks creates exactly one
    record per recipient, in the recipients' order, each PENDING and
    carrying the trimmed content and the resolved media URL; the 200
    response lists the ids of these records in that same order. *)
Theorem C1_one_pending_record_per_recipient
    (E : Collaborators) (req : BatchRequest) (w : World)
    (file : option MulterFile) (userId : jsstring) (c : Client.t)
    (inst : WhatsAppInstance) (url : option jsstring) :
  upload req = inr file ->
  authenticated (req_user req) = Some userId ->
  parse_numbers req <> [] ->
  parse_content req <> [] ->
  ready E userId w = Some (c, inst) ->
  fst (process_media E (select_media file (body_mediaUrl req)) w) = Next url ->
  let w' := run (sendBatchMessages E req) w in
  exists records r,
    messages w' = messages w ++ records /\
    Forall2
      (fun number m =>
         Message.number m = number /\
         Message.clientId m = Client.id c /\
         Message.status m = PENDING /\
         Message.content m = parse_content req /\
         Message.mediaUrl m = url /\
         Message.error m = None)
      (parse_numbers req) records /\
    sent w' = Some r /\
    status r = 200 /\
    success (body r) = true /\
    messageIds (body r) = Some (map Message.id records).
Proof.
  intros Hup Hu Hn Hc Hr Hm w'. subst w'.
  assert (Hin : invalid_input req = false)
    by (apply invalid_input_false; tauto).
  rewrite (run_ready E req w file userId c inst Hup Hu Hin Hr).
  pose proof (process_media_frame E (select_media file (body_mediaUrl req)) w)
    as (_ & _ & Hmsg & _).
  destruct (process_media E (select_media file (body_mediaUrl req)) w)
    as [o w1]. simpl in Hm, Hmsg. subst o.
  destruct (accepted_world_frame E c inst (parse_numbers req)
              (parse_content req) url w1) as (Hms & Hs & _).
  eexists. eexists. rewrite Hms, Hs, Hmsg.
  repeat split. apply new_records_spec.
Qed.

Lemma C1_witness_hello :
  let w' := run (sendBatchMessages Scenario.E Scenario.hello) Scenario.world in
  exists records r,
    messages w' = messages Scenario.world ++ records /\
    Forall2
      (fun number m =>
         Message.number m = number /\
         Message.clientId m = js "client-a" /\
         Message.status m = PENDING /\
         Message.content m = js "Hello" /\
         Message.mediaUrl m = None /\
         Message.error m = None)
      [js "1555000111"; js "1555000222"] records /\
    sent w' = Some r /\
    status r = 200 /\
    success (body r) = true /\
    messageIds (body r) = Some (map Message.id records).
Proof.
  apply (C1_one_pending_record_per_recipient
           Scenario.E Scenario.hello Scenario.world None Scenario.alice
           (Scenario.session_of "client-a" "user-a" CONNECTED)
           (Scenario.failing_instance (js "client-a")) None).
  - reflexivity.
  - reflexivity.
  - vm_compute. discriminate.
  - vm_compute. discriminate.
  - reflexivity.
  - reflexivity.
Defined.

(** C2: A request that passed the upload step and carries an authenticated
    user, whose parsed recipient list is empty or whose content is empty or
    white space only, is answered 400 with the invalid-format message, and
    nothing is created, uploaded or fetched. *)
Theorem C2_invalid_batch_request
    (E : Collaborators) (req : BatchRequest) (w : World)
    (file : option MulterFile) (userId : jsstring) :
  upload req = inr file ->
  authenticated (req_user req) = Some userId ->
  parse_numbers req = [] \/
  forallb is_js_whitespace (content_field req) = true ->
  let w' := run (sendBatchMessages E req) w in
  sent w' = Some {| status := 400; body := failure invalid_format |} /\
  messages w' = messages w /\
  calls is_create w' = calls is_create w /\
  calls is_upload w' = calls is_upload w /\
  calls is_fetch w' = calls is_fetch w.
Proof.
  intros Hup Hu Hbad w'. subst w'.
  apply invalid_input_true in Hbad.
  rewrite (run_invalid E req w file userId Hup Hu Hbad).
  repeat split.
Qed.

Lemma C2_witness_blank_content :
  let req := Scenario.request (Some Scenario.alice) "1555000111" "  " None None in
  let w' := run (sendBatchMessages Scenario.E req) Scenario.world in
  sent w' = Some {| status := 400; body := failure invalid_format |} /\
  messages w' = messages Scenario.world /\
  calls is_create w' = calls is_create Scenario.world /\
  calls is_upload w' = calls is_upload Scenario.world /\
  calls is_fetch w' = calls is_fetch Scenario.world.
Proof.
  apply (C2_invalid_batch_request Scenario.E
           (Scenario.request (Some Scenario.alice) "1555000111" "  " None None)
           Scenario.world None Scenario.alice).
  - reflexivity.
  - reflexivity.
  - right. reflexivity.
Defined.

(** C3: For a request that passed the upload step and carries an
    authenticated user: if that user has no client session, or the session
    is not CONNECTED, or no runtime instance is obtainable for it, the
    answer is a 400 and no record is created (nor anything uploaded or
    fetched); when the input itself is valid the 400 is the session one
    (client not connected, or not initialized). *)
Theorem C3_session_not_ready
    (E : Collaborators) (req : BatchRequest) (w : World)
    (file : option MulterFile) (userId : jsstring) :
  upload req = inr file ->
  authenticated (req_user req) = Some userId ->
  first_client userId w = None \/
  (exists c, first_client userId w = Some c /\
             Client.status c <> CONNECTED) \/
  (exists c, first_client userId w = Some c /\
             getWhatsAppInstance E (Client.id c) = None) ->
  let w' := run (sendBatchMessages E req) w in
  status_sent w' = Some 400 /\
  messages w' = messages w /\
  calls is_create w' = calls is_create w /\
  calls is_upload w' = calls is_upload w /\
  calls is_fetch w' = calls is_fetch w /\
  (invalid_input req = false ->
   message_sent w' = Some "WhatsApp client not connected"%string \/
   message_sent w' = Some "WhatsApp client not initialized"%string).
Proof.
  intros Hup Hu Hs w'. subst w'.
  assert (Hr : ready E userId w = None).
  { unfold ready.
    destruct Hs as [H | [(c & H & Hst) | (c & H & Hi)]]; rewrite H; trivial.
    - destruct (Client.status c); simpl; congruence.
    - rewrite Hi. now destruct (ClientStatus_eqb (Client.status c) CONNECTED). }
  destruct (invalid_input req) eqn:Hin.
  - rewrite (run_invalid E req w file userId Hup Hu Hin).
    repeat split. discriminate.
  - rewrite (run_session_not_ready E req w file userId Hup Hu Hin Hr).
    destruct (first_client userId w) as [c|];
      [destruct (ClientStatus_eqb (Client.status c) CONNECTED)| ];
      repeat split; intros _; auto.
Qed.

Lemma C3_witness_disconnected :
  let req := Scenario.request (Some Scenario.bob) "1555000111" "Hello" None None in
  let w' := run (sendBatchMessages Scenario.E req) Scenario.world in
  status_sent w' = Some 400 /\
  messages w' = messages Scenario.world /\
  calls is_create w' = calls is_create Scenario.world /\
  calls is_upload w' = calls is_upload Scenario.world /\
  calls is_fetch w' = calls is_fetch Scenario.world /\
  (invalid_input req = false ->
   message_sent w' = Some "WhatsApp client not connected"%string \/
   message_sent w' = Some "WhatsApp client not initialized"%string).
Proof.
  apply (C3_session_not_ready Scenario.E
           (Scenario.request (Some Scenario.bob) "1555000111" "Hello" None None)
           Scenario.world None Scenario.bob).
  - reflexivity.
  - reflexivity.
  - right. left.
    exists (Scenario.session_of "client-b" "user-b" DISCONNECTED).
    split; [reflexivity | discriminate].
Defined.

(** ** Calls made on the accepted path, and what settles later *)

Lemma accepted_world_calls (E : Collaborators) (c : Client.t)
    (inst : WhatsAppInstance) (numbers : list jsstring) (content : jsstring)
    (url : option jsstring) (w : World) :
  let w' := accepted_world E c inst numbers content url w in
  calls is_fetch w' = calls is_fetch w /\
  calls is_upload w' = calls is_upload w /\
  calls is_create w' = S (calls is_create w) /\
  calls is_dispatch w' = S (calls is_dispatch w).
Proof. repeat split. Qed.




(** C5: When the request supplies a media URL, the handler fetches it and
    the fetch answers with a non-success status, the request is answered
    400 "Failed to process media" carrying the error "Failed to fetch media
    from URL", which is logged, and no record is created and nothing is
    uploaded. *)
Theorem C5_failed_fetch_aborts
    (E : Collaborators) (req : BatchRequest) (w : World)
    (url : jsstring) (payload : Settled Buffer) :
  body_mediaUrl req = Some url ->
  fetch E url = Fulfilled (false, payload) ->
  calls is_fetch (run (sendBatchMessages E req) w) <> calls is_fetch w ->
  let w' := run (sendBatchMessages E req) w in
  let cause := Error "Failed to fetch media from URL" in
  sent w' =
    Some {| status := 400;
            body := failure_with "Failed to process media"
                      (ErrorObject cause) |} /\
  trace w' =
    LoggerError "Failed to process media:" (Some cause)
    :: FetchCall url :: trace w /\
  messages w' = messages w /\
  calls is_create w' = calls is_create w /\
  calls is_upload w' = calls is_upload w.
Proof.
  intros Hurl Hfetch. cbv zeta.
  batch_paths E req w; try (intros Hf; now elim Hf).
  - rewrite Hurl. destruct file as [f|]; simpl select_media.
    + rewrite process_media_buffer.
      destruct (uploadToCloudinary E (buffer f)); intros Hf; now elim Hf.
    + destruct (truthy url) eqn:Ht.
      * rewrite (process_media_url E url w Ht), Hfetch.
        intros _. repeat split.
      * rewrite process_media_none. intros Hf. now elim Hf.
  - destruct (first_client userId w) as [c|];
      [destruct (ClientStatus_eqb (Client.status c) CONNECTED)|];
      intros Hf; now elim Hf.
Qed.

Lemma C5_witness_broken_url :
  let req :=
    Scenario.request (Some Scenario.alice) "1555000111" "Hello"
      (Some (js "http://gone")) None in
  let w' := run (sendBatchMessages Scenario.E req) Scenario.world in
  let cause := Error "Failed to fetch media from URL" in
  sent w' =
    Some {| status := 400;
            body := failure_with "Failed to process media"
                      (ErrorObject cause) |} /\
  trace w' =
    LoggerError "Failed to process media:" (Some cause)
    :: FetchCall (js "http://gone") :: trace Scenario.world /\
  messages w' = messages Scenario.world /\
  calls is_create w' = calls is_create Scenario.world /\
  calls is_upload w' = calls is_upload Scenario.world.
Proof.
  apply (C5_failed_fetch_aborts Scenario.E
           (Scenario.request (Some Scenario.alice) "1555000111" "Hello"
              (Some (js "http://gone")) None)
           Scenario.world (js "http://gone") (Fulfilled [])).
  - reflexivity.
  - reflexivity.
  - vm_compute. discriminate.
Defined.



(** C8: A request uploads to the media storage at most once.  A request
    with neither an uploaded file nor a media URL uploads and fetches
    nothing and is never answered with the media failure; when multer has
    accepted its form and it passes the other checks it goes on to create
    its records with no media reference and is acknowledged. *)
Theorem C8_at_most_one_upload
    (E : Collaborators) (req : BatchRequest) (w : World) :
  let w' := run (sendBatchMessages E req) w in
  (calls is_upload w <= calls is_upload w' <= S (calls is_upload w))%nat /\
  (media_part req = None ->
   supplies_url req = false ->
   calls is_upload w' = calls is_upload w /\
   calls is_fetch w' = calls is_fetch w /\
   (forall e, sent w' <> Some (media_failure e)) /\
   (forall userId c inst,
       upload req = inr None ->
       authenticated (req_user req) = Some userId ->
       invalid_input req = false ->
       ready E userId w = Some (c, inst) ->
       w' = accepted_world E c inst (parse_numbers req) (parse_content req)
              None w)).
Proof.
  cbv zeta. split.
  - batch_paths E req w; unfold calls; simpl; try lia.
    + pose proof (process_media_frame E
                    (select_media file (body_mediaUrl req)) w)
        as (_ & _ & _ & _ & _ & _ & _ & Hup' & _).
      destruct (process_media E (select_media file (body_mediaUrl req)) w)
        as [[url| |e] w1]; simpl in Hup'; unfold calls in Hup'; simpl; lia.
    + destruct (first_client userId w) as [c|];
        [destruct (ClientStatus_eqb (Client.status c) CONNECTED)|];
        simpl; lia.
  - intros Hpart Hurl.
    assert (Hfile : forall file, upload req = inr file -> file = None).
    { intros file. unfold upload. rewrite Hpart. simpl.
      destruct (fields_within_limit req); [|discriminate]. congruence. }
    assert (Hmedia : select_media None (body_mediaUrl req) = None).
    { unfold supplies_url in Hurl. unfold select_media.
      destruct (body_mediaUrl req) as [u|]; trivial. now rewrite Hurl. }
    batch_paths E req w.
    + repeat split; try discriminate; intros; congruence.
    + repeat split; try discriminate; intros; congruence.
    + rewrite (Hfile file eq_refl), Hmedia, process_media_none.
      repeat split; try discriminate.
      intros userId' c' inst' _ Hu' _ Hr'.
      injection Hu' as <-. rewrite Hr in Hr'. now injection Hr' as <- <-.
    + destruct (first_client userId w) as [c|];
        [destruct (ClientStatus_eqb (Client.status c) CONNECTED)|];
        repeat split; try discriminate;
        intros userId' c' inst' _ Hu' _ Hr';
        injection Hu' as <-; congruence.
    + repeat split; try discriminate; intros; congruence.
Qed.

Lemma C8_witness_no_media :
  let w' := run (sendBatchMessages Scenario.E Scenario.hello) Scenario.world in
  calls is_upload w' = calls is_upload Scenario.world /\
  calls is_fetch w' = calls is_fetch Scenario.world /\
  (forall e, sent w' <> Some (media_failure e)) /\
  (forall userId c inst,
      upload Scenario.hello = inr None ->
      authenticated (req_user Scenario.hello) = Some userId ->
      invalid_input Scenario.hello = false ->
      ready Scenario.E userId Scenario.world = Some (c, inst) ->
      w' = accepted_world Scenario.E c inst (parse_numbers Scenario.hello)
             (parse_content Scenario.hello) None Scenario.world).
Proof.
  apply (C8_at_most_one_upload Scenario.E Scenario.hello Scenario.world).
  - reflexivity.
  - reflexivity.
Defined.

(** ** Rejected uploads *)


Lemma upload_accepted (req : BatchRequest) (p : FilePart)
    (file : option MulterFile) :
  media_part req = Some p ->
  upload req = inr file ->
  file = Some {| mimetype := part_mimetype p; buffer := part_data p |}.
Proof.
  intros Hp. unfold upload. rewrite Hp. simpl.
  destruct (file_error p), (fields_within_limit req);
    try discriminate; try (destruct (media_first req); discriminate).
  congruence.
Qed.




(** ** File and URL together *)

Lemma new_records_mediaUrl (E : Collaborators) (clientId content : jsstring)
    (media : option jsstring) (t : DateTime) (numbers : list jsstring) :
  forall n,
    Forall (fun m => Message.mediaUrl m = media)
      (new_records E clientId content media t n numbers).
Proof.
  induction numbers as [|x rest IH]; intros n; simpl; constructor.
  - reflexivity.
  - apply IH.
Qed.

(** C10: When a request carries both an uploaded file and a [mediaUrl]
    field, the URL is never fetched; every record the request persists
    carries the URL derived from the upload of the file's bytes; and on the
    accepted path the run is exactly: upload the file's bytes, then create
    the records with the optimized URL of that upload. *)
Theorem C10_file_takes_precedence
    (E : Collaborators) (req : BatchRequest) (w : World)
    (p : FilePart) (u : jsstring) :
  media_part req = Some p ->
  body_mediaUrl req = Some u ->
  let w' := run (sendBatchMessages E req) w in
  calls is_fetch w' = calls is_fetch w /\
  (exists records,
      messages w' = messages w ++ records /\
      Forall
        (fun m =>
           exists pid,
             uploadToCloudinary E (part_data p) = Fulfilled pid /\
             Message.mediaUrl m = Some (getOptimizedUrl E pid))
        records) /\
  (forall file userId c inst pid,
      upload req = inr file ->
      authenticated (req_user req) = Some userId ->
      invalid_input req = false ->
      ready E userId w = Some (c, inst) ->
      uploadToCloudinary E (part_data p) = Fulfilled pid ->
      w' = accepted_world E c inst (parse_numbers req) (parse_content req)
             (Some (getOptimizedUrl E pid))
             (emit (CloudinaryUpload (part_data p)) w)).
Proof.
  intros Hp Hurl. cbv zeta.
  assert (Hnone : forall w0 : World,
             exists records,
               messages w0 = messages w0 ++ records /\
               Forall
                 (fun m =>
                    exists pid,
                      uploadToCloudinary E (part_data p) = Fulfilled pid /\
                      Message.mediaUrl m = Some (getOptimizedUrl E pid))
                 records).
  { intros w0. exists []. rewrite app_nil_r. split; constructor. }
  batch_paths E req w.
  - repeat split; [apply (Hnone w)|]. intros; discriminate.
  - repeat split; [apply (Hnone w)|]. intros; congruence.
  - rewrite (upload_accepted req p file Hp Hup). simpl select_media.
    rewrite process_media_buffer.
    destruct (uploadToCloudinary E (part_data p)) as [pid|e] eqn:Hcl.
    + repeat split.
      * eexists. split; [reflexivity|].
        eapply Forall_impl; [|apply new_records_mediaUrl].
        intros m Hm. exists pid. now split.
      * intros file' userId' c' inst' pid' _ Hu' _ Hr' Hpid.
        injection Hpid as <-. injection Hu' as <-.
        rewrite Hr in Hr'. now injection Hr' as <- <-.
    + repeat split; [apply (Hnone w)|]. intros; discriminate.
  - destruct (first_client userId w) as [c|];
      [destruct (ClientStatus_eqb (Client.status c) CONNECTED)|];
      (repeat split; [apply (Hnone w)|]; intros; congruence).
  - repeat split; [apply (Hnone w)|]. intros; congruence.
Qed.

Lemma C10_witness_both_media :
  let w' :=
    run (sendBatchMessages Scenario.E Scenario.both_media) Scenario.world in
  calls is_fetch w' = calls is_fetch Scenario.world /\
  (exists records,
      messages w' = messages Scenario.world ++ records /\
      Forall
        (fun m =>
           exists pid,
             uploadToCloudinary Scenario.E (part_data Scenario.png)
               = Fulfilled pid /\
             Message.mediaUrl m = Some (getOptimizedUrl Scenario.E pid))
        records) /\
  (forall file userId c inst pid,
      upload Scenario.both_media = inr file ->
      authenticated (req_user Scenario.both_media) = Some userId ->
      invalid_input Scenario.both_media = false ->
      ready Scenario.E userId Scenario.world = Some (c, inst) ->
      uploadToCloudinary Scenario.E (part_data Scenario.png) = Fulfilled pid ->
      w' = accepted_world Scenario.E c inst
             (parse_numbers Scenario.both_media)
             (parse_content Scenario.both_media)
             (Some (getOptimizedUrl Scenario.E pid))
             (emit (CloudinaryUpload (part_data Scenario.png))
                Scenario.world)).
Proof.
  apply (C10_file_takes_precedence Scenario.E Scenario.both_media
           Scenario.world Scenario.png (js "http://gone")).
  - reflexivity.
  - reflexivity.
Defined.

(** ** Listing *)

Lemma MessageStatus_eqb_eq (a b : MessageStatus) :
  MessageStatus_eqb a b = true <-> a = b.
Proof. destruct a, b; simpl; split; congruence. Qed.

Lemma where_messages_spec (clientId : jsstring) (st : option MessageStatus)
    (m : Message.t) :
  where_messages clientId st m = true <->
  Message.clientId m = clientId /\
  (forall s, st = Some s -> Message.status m = s).
Proof.
  unfold where_messages. rewrite andb_true_iff, jsstring_eqb_eq.
  destruct st as [s|].
  - rewrite MessageStatus_eqb_eq. split.
    + intros (H1 & H2). split; trivial. intros s' Hs. congruence.
    + intros (H1 & H2). split; auto.
  - split.
    + intros (H1 & _). split; trivial. discriminate.
    + intros (H1 & _). auto.
Qed.

Lemma run_getMessages (req : ListRequest) (w : World)
    (userId : jsstring) (c : Client.t) :
  authenticated (list_user req) = Some userId ->
  first_client userId w = Some c ->
  let page := parseInt_or (query_page req) 1 in
  let limit := parseInt_or (query_limit req) 10 in
  1 <= page ->
  1 <= limit ->
  run (getMessages req) w =
  set_sent
    {| status := 200;
       body :=
         page_of
           (firstn (Z.to_nat limit)
              (skipn (Z.to_nat ((page - 1) * limit))
                 (orderBy_createdAt_desc (tie_order w)
                    (filter (where_messages (Client.id c) (query_status req))
                       (messages w)))))
           page limit (count (Client.id c) (query_status req) w) |}
    w.
Proof.
  intros Hu Hc page limit Hp Hl.
  unfold run, getMessages, try_catch, bind. rewrite Hu. cbv zeta.
  unfold findFirst_client. rewrite Hc.
  unfold transaction_findMany_count, findMany, paginate.
  fold page. fold limit.
  destruct ((page - 1) * limit <? 0) eqn:Hneg;
    [apply Z.ltb_lt in Hneg; nia|].
  destruct (0 <=? limit) eqn:Hpos; [|apply Z.leb_gt in Hpos; lia].
  reflexivity.
Qed.

(** C4: For a user with a session, a page p >= 1 and a limit l >= 1 (page,
    limit and offset within the 32-bit integers), the handler answers 200
    with the rows at positions (p-1)*l+1 .. p*l of the messages of that
    user's session (restricted to the status filter when there is one)
    taken in descending creation-time order, the total count over the same
    filter, and totalPages the ceiling of total/limit. *)
Theorem C4_listMessages_page
    (req : ListRequest) (w : World) (userId : jsstring) (c : Client.t) :
  authenticated (list_user req) = Some userId ->
  first_client userId w = Some c ->
  let p := parseInt_or (query_page req) 1 in
  let l := parseInt_or (query_limit req) 10 in
  1 <= p <= paging_bound ->
  1 <= l <= paging_bound ->
  (p - 1) * l <= paging_bound ->
  let matching :=
    filter (where_messages (Client.id c) (query_status req)) (messages w) in
  let w' := run (getMessages req) w in
  exists ordered records tp,
    In c (clients w) /\
    Client.userId c = userId /\
    (forall m,
        In m ordered <->
        In m (messages w) /\
        Message.clientId m = Client.id c /\
        (forall s, query_status req = Some s -> Message.status m = s)) /\
    Permutation matching ordered /\
    StronglySorted newer_first ordered /\
    (forall i, (i < Z.to_nat l)%nat ->
               nth_error records i
               = nth_error ordered (Z.to_nat ((p - 1) * l) + i)) /\
    (List.length records <= Z.to_nat l)%nat /\
    l * (tp - 1) < Z.of_nat (List.length ordered) <= l * tp /\
    sent w' =
      Some {| status := 200;
              body :=
                {| success := true; message := None; error := None;
                   messageIds := None;
                   data :=
                     Some (MessagePage records
                             {| page := p; limit := l;
                                total := Z.of_nat (List.length ordered);
                                totalPages := tp |}) |} |} /\
    messages w' = messages w.
Proof.
  intros Hu Hc p l Hp Hl _ matching w'. subst w'.
  rewrite (run_getMessages req w userId c Hu Hc (proj1 Hp) (proj1 Hl)).
  fold p. fold l. fold matching.
  pose proof (orderBy_perm (tie_order w) matching) as Hperm.
  assert (Hlen : count (Client.id c) (query_status req) w
                 = Z.of_nat
                     (List.length
                        (orderBy_createdAt_desc (tie_order w) matching))).
  { unfold count. fold matching. f_equal. now apply Permutation_length. }
  rewrite Hlen.
  exists (orderBy_createdAt_desc (tie_order w) matching).
  eexists.
  exists (Math_ceil_div
            (Z.of_nat
               (List.length (orderBy_createdAt_desc (tie_order w) matching)))
            l).
  unfold first_client in Hc. apply find_some in Hc as (Hcin & Hcu).
  apply jsstring_eqb_eq in Hcu.
  split; [exact Hcin|]. split; [exact Hcu|].
  split.
  { intros m. split.
    - intros Hm.
      apply (Permutation_in _ (Permutation_sym Hperm)) in Hm.
      apply filter_In in Hm as (Hin & Hw).
      apply where_messages_spec in Hw as (H1 & H2). auto.
    - intros (Hin & H1 & H2).
      apply (Permutation_in _ Hperm). apply filter_In. split; trivial.
      apply where_messages_spec. auto. }
  split; [exact Hperm|].
  split; [apply orderBy_sorted|].
  split; [|split; [|split; [|split; [reflexivity|reflexivity]]]].
  - intros i Hi. now apply nth_error_firstn_skipn.
  - apply firstn_le_length.
  - apply Math_ceil_div_spec. lia.
Qed.

Lemma C4_witness_second_page :
  let c := Scenario.session_of "client-a" "user-a" CONNECTED in
  let p := 2 in
  let l := 10 in
  let matching :=
    filter (where_messages (Client.id c) None) (messages Scenario.world25) in
  let w' := run (getMessages Scenario.second_page) Scenario.world25 in
  exists ordered records tp,
    In c (clients Scenario.world25) /\
    Client.userId c = Scenario.alice /\
    (forall m,
        In m ordered <->
        In m (messages Scenario.world25) /\
        Message.clientId m = Client.id c /\
        (forall s, query_status Scenario.second_page = Some s ->
                   Message.status m = s)) /\
    Permutation matching ordered /\
    StronglySorted newer_first ordered /\
    (forall i, (i < Z.to_nat l)%nat ->
               nth_error records i
               = nth_error ordered (Z.to_nat ((p - 1) * l) + i)) /\
    (List.length records <= Z.to_nat l)%nat /\
    l * (tp - 1) < Z.of_nat (List.length ordered) <= l * tp /\
    sent w' =
      Some {| status := 200;
              body :=
                {| success := true; message := None; error := None;
                   messageIds := None;
                   data :=
                     Some (MessagePage records
                             {| page := p; limit := l;
                                total := Z.of_nat (List.length ordered);
                                totalPages := tp |}) |} |} /\
    messages w' = messages Scenario.world25.
Proof.
  apply (C4_listMessages_page Scenario.second_page Scenario.world25
           Scenario.alice (Scenario.session_of "client-a" "user-a" CONNECTED)).
  - reflexivity.
  - reflexivity.
  - vm_compute. split; discriminate.
  - vm_compute. split; discriminate.
  - vm_compute. discriminate.
Defined.

(** ** Single message lookup *)

Lemma NoDup_map_eq {A B} (f : A -> B) (l : list A) (x y : A) :
  NoDup (map f l) -> In x l -> In y l -> f x = f y -> x = y.
Proof.
  induction l as [|a l IH]; simpl; intros Hnd Hx Hy Hf; [contradiction|].
  inversion Hnd as [|b bs Hnotin Hnd']; subst.
  destruct Hx as [<-|Hx], Hy as [<-|Hy]; trivial.
  - elim Hnotin. rewrite Hf. now apply in_map.
  - elim Hnotin. rewrite <- Hf. now apply in_map.
  - now apply IH.
Qed.

(** C6: In a database whose message ids and session ids are unique (they
    are the primary keys of the schema): when user B asks for the status of
    a message that belongs to a session owned by a different user A, the
    answer is 404 "Message not found", with no data, and nothing changes. *)
Theorem C6_cross_user_isolation
    (req : StatusRequest) (w : World) (userA userB : jsstring)
    (c : Client.t) (m : Message.t) :
  NoDup (map Message.id (messages w)) ->
  NoDup (map Client.id (clients w)) ->
  In m (messages w) ->
  In c (clients w) ->
  Message.clientId m = Client.id c ->
  Client.userId c = userA ->
  userA <> userB ->
  authenticated (status_user req) = Some userB ->
  params_id req = Message.id m ->
  let w' := run (getMessageStatus req) w in
  sent w' =
    Some {| status := 404;
            body := {| success := false;
                       message := Some "Message not found"%string;
                       error := None; messageIds := None; data := None |} |} /\
  messages w' = messages w /\
  trace w' = trace w.
Proof.
  intros Hids Hcids Hm Hc Hmc Hown Hdiff Hu Hid w'. subst w'.
  unfold run, getMessageStatus, try_catch, bind. rewrite Hu. cbv zeta.
  unfold findFirst_message.
  match goal with
  | |- context [find ?f (messages w)] =>
      destruct (find f (messages w)) as [x|] eqn:Hfind
  end.
  - exfalso. apply find_some in Hfind as (Hx & Hpred).
    apply andb_true_iff in Hpred as (Hxid & Hex).
    apply jsstring_eqb_eq in Hxid. rewrite Hid in Hxid.
    assert (x = m) as -> by (eapply NoDup_map_eq; eauto).
    apply existsb_exists in Hex as (c' & Hc' & Hpred).
    apply andb_true_iff in Hpred as (Hcid & Huid).
    apply jsstring_eqb_eq in Hcid, Huid. rewrite Hmc in Hcid.
    assert (c' = c) as -> by (eapply NoDup_map_eq; eauto).
    congruence.
  - repeat split.
Qed.

Lemma C6_witness_bob_asks :
  let w' := run (getMessageStatus Scenario.bob_asks) Scenario.world in
  sent w' =
    Some {| status := 404;
            body := {| success := false;
                       message := Some "Message not found"%string;
                       error := None; messageIds := None; data := None |} |} /\
  messages w' = messages Scenario.world /\
  trace w' = trace Scenario.world.
Proof.
  apply (C6_cross_user_isolation Scenario.bob_asks Scenario.world
           Scenario.alice Scenario.bob
           (Scenario.session_of "client-a" "user-a" CONNECTED)
           (Scenario.row "old-1" "client-a" SENT 10)).
  - vm_compute. repeat constructor; simpl; intuition discriminate.
  - vm_compute. repeat constructor; simpl; intuition discriminate.
  - simpl. left. reflexivity.
  - simpl. left. reflexivity.
  - reflexivity.
  - reflexivity.
  - vm_compute. discriminate.
  - reflexivity.
  - reflexivity.
Defined.

(** ** Worked examples *)

Example parseInt_25 : parseInt (js "25") = Some 25.
Proof. reflexivity. Qed.

Example parseInt_skips_space_and_stops : parseInt (js "  -12px") = Some (-12).
Proof. reflexivity. Qed.

Example parseInt_hex : parseInt (js "0x1f") = Some 31.
Proof. reflexivity. Qed.

Example parseInt_nan : parseInt (js "abc") = None.
Proof. reflexivity. Qed.

Example parseInt_or_zero_is_default : parseInt_or (Some (js "0")) 10 = 10.
Proof. reflexivity. Qed.

Example split_then_filter :
  filter truthy (split comma (js "15,,27,")) = [js "15"; js "27"].
Proof. reflexivity. Qed.

Example split_empty : split comma (js "") = [js ""].
Proof. reflexivity. Qed.

Example trim_hello : trim (js "  Hello ") = js "Hello".
Proof. reflexivity. Qed.

Example ceil_25_10 : Math_ceil_div 25 10 = 3.
Proof. reflexivity. Qed.

Example ceil_20_10 : Math_ceil_div 20 10 = 2.
Proof. reflexivity. Qed.

(** The spec's scenario: two recipients, "Hello", no media. *)
Example hello_response :
  sent (run (sendBatchMessages Scenario.E Scenario.hello) Scenario.world)
  = Some {| status := 200;
            body := {| success := true;
                       message :=
                         Some "Processing messages for 2 recipients"%string;
                       error := None;
                       messageIds := Some [js "m0"; js "m1"];
                       data := None |} |}.
Proof. reflexivity. Qed.

Example hello_rows :
  messages (run (sendBatchMessages Scenario.E Scenario.hello) Scenario.world)
  = messages Scenario.world
    ++ [Scenario.created "m0" "1555000111";
        Scenario.created "m1" "1555000222"].
Proof. reflexivity. Qed.

(** The batch of the scenario fails after the response: one more log line,
    the same response. *)
Example hello_settles :
  let w' := run (sendBatchMessages Scenario.E Scenario.hello) Scenario.world in
  trace (settle_pending w')
  = LoggerError "Message processing error:" (Some (Error "socket closed"))
    :: trace w' /\
  sent (settle_pending w') = sent w'.
Proof. vm_compute. split; reflexivity. Qed.

(** Page 2 of 25 messages, 10 a page: the 11th to the 20th newest, 3 pages. *)
Example second_page_of_25 :
  match sent (run (getMessages Scenario.second_page) Scenario.world25) with
  | Some {| status := 200;
            body := {| data := Some (MessagePage ms pg) |} |} =>
      map Message.createdAt ms = [15; 14; 13; 12; 11; 10; 9; 8; 7; 6] /\
      total pg = 25 /\ totalPages pg = 3
  | _ => False
  end.
Proof. vm_compute. repeat split. Qed.

(** A file with a URL: the bytes are uploaded, the URL is not fetched. *)
Example both_media_trace :
  map is_fetch
    (trace (run (sendBatchMessages Scenario.E Scenario.both_media)
              Scenario.world))
  = [false; false; false; false] /\
  In (CloudinaryUpload (part_data Scenario.png))
    (trace (run (sendBatchMessages Scenario.E Scenario.both_media)
              Scenario.world)).
Proof. vm_compute. split; [reflexivity | tauto]. Qed.

(** An unauthenticated request is refused before its input is looked at. *)
Example anonymous_request :
  status_sent
    (run (sendBatchMessages Scenario.E
            (Scenario.request None "" "" None None)) Scenario.world)
  = Some 401.
Proof. vm_compute. reflexivity. Qed.

(** * Further properties of the controller *)

(** ** The upload filter (lines 10-22) *)



(** ** Parsing the form (lines 56-58) *)

Lemma split_cons (sep : N) (s : jsstring) :
  exists w ws, split sep s = w :: ws.
Proof.
  destruct s as [|c s]; simpl; [eauto|].
  destruct (c =? sep)%N; [eauto|].
  destruct (split sep s); eauto.
Qed.

Lemma split_concat (sep : N) (s : jsstring) :
  List.concat (split sep s) = filter (fun c => negb (c =? sep)%N) s.
Proof.
  induction s as [|c s IH]; simpl; trivial.
  destruct (c =? sep)%N; simpl; [exact IH|].
  destruct (split sep s) as [|w ws]; simpl in *.
  - now rewrite <- IH.
  - now rewrite <- IH.
Qed.





Lemma concat_nil_filter (l : list jsstring) :
  filter truthy l = [] <-> List.concat l = [].
Proof.
  induction l as [|w l IH]; simpl; [tauto|].
  destruct w; simpl; [exact IH|]. split; discriminate.
Qed.

(** X3: The recipient list is empty exactly when the [numbers] field is
    absent or holds nothing but commas (the empty string included). *)
Theorem X3_parse_numbers_empty (req : BatchRequest) :
  parse_numbers req = [] <->
  match body_numbers req with
  | None => True
  | Some s => forall c, In c s -> c = comma
  end.
Proof.
  unfold parse_numbers. destruct (body_numbers req) as [s|]; [|tauto].
  rewrite concat_nil_filter, split_concat.
  induction s as [|c s IH]; simpl.
  - split; [intros _ c [] | trivial].
  - destruct (c =? comma)%N eqn:Hc; simpl.
    + apply N.eqb_eq in Hc. rewrite IH. split.
      * intros H x [<-|Hx]; auto.
      * intros H x Hx. apply H. now right.
    + apply N.eqb_neq in Hc. split; [discriminate|].
      intros H. elim Hc. apply H. now left.
Qed.

Lemma trimStart_decomp (s : jsstring) :
  exists a, s = a ++ trimStart s /\ forallb is_js_whitespace a = true.
Proof.
  induction s as [|c s (a & Ha & Hws)]; simpl.
  - now exists [].
  - destruct (is_js_whitespace c) eqn:Hc.
    + exists (c :: a). simpl. rewrite Hc, Hws. split; [now f_equal | trivial].
    + now exists [].
Qed.

Lemma trimStart_head (s : jsstring) (c : N) (rest : jsstring) :
  trimStart s = c :: rest -> is_js_whitespace c = false.
Proof.
  induction s as [|x s IH]; simpl; [discriminate|].
  destruct (is_js_whitespace x) eqn:Hx; [exact IH|].
  intros H. injection H as <- _. exact Hx.
Qed.

Lemma trimEnd_decomp (t : jsstring) :
  exists b, t = trimEnd t ++ b /\ forallb is_js_whitespace b = true.
Proof.
  destruct (trimStart_decomp (rev t)) as (a & Ha & Hws).
  exists (rev a). split.
  - unfold trimEnd. rewrite <- rev_app_distr, <- Ha. now rewrite rev_involutive.
  - now rewrite forallb_rev.
Qed.

Lemma trimEnd_last (t front : jsstring) (c : N) :
  trimEnd t = front ++ [c] -> is_js_whitespace c = false.
Proof.
  unfold trimEnd. intros H.
  apply (f_equal (@rev N)) in H.
  rewrite rev_involutive, rev_app_distr in H. simpl in H.
  now apply trimStart_head in H.
Qed.

(** X4: The content the handler works with is the [content] field without
    the white space around it: the field is blank, then the content, then
    blank again, and the content, when not empty, neither starts nor ends
    with a white-space character (white space inside it is kept). *)
Theorem X4_parse_content_trimmed (req : BatchRequest) :
  (exists a b,
      content_field req = a ++ parse_content req ++ b /\
      forallb is_js_whitespace a = true /\
      forallb is_js_whitespace b = true) /\
  (forall c rest,
      parse_content req = c :: rest -> is_js_whitespace c = false) /\
  (forall front c,
      parse_content req = front ++ [c] -> is_js_whitespace c = false).
Proof.
  unfold parse_content, trim.
  destruct (trimStart_decomp (content_field req)) as (a & Ha & Hwa).
  destruct (trimEnd_decomp (trimStart (content_field req))) as (b & Hb & Hwb).
  repeat split.
  - exists a, b. repeat split; trivial. now rewrite <- Hb.
  - intros c rest H. rewrite H in Hb. simpl in Hb.
    now apply trimStart_head in Hb.
  - intros front c. apply trimEnd_last.
Qed.

(** ** The paths of [sendBatchMessages], further *)

(** Splits the media step along what the collaborators answer. *)
Ltac media_cases E media w :=
  let b := fresh "b" in
  let url := fresh "url" in
  let Ht := fresh "Ht" in
  destruct media as [[b|url]|];
  [ rewrite (process_media_buffer E b w);
    destruct (uploadToCloudinary E b)
  | destruct (truthy url) eqn:Ht;
    [ rewrite (process_media_url E url w Ht);
      let bytes := fresh "bytes" in
      destruct (fetch E url) as [[[|] [bytes|?]]|?];
      [ destruct (uploadToCloudinary E bytes) | | | | ]
    | unfold process_media, media_truthy; rewrite Ht ]
  | rewrite (process_media_none E w) ].

(** X5: A request with no usable user id whose upload multer accepted is
    answered 401 "Unauthorized" whatever its fields hold, and nothing else
    happens: no log line, no lookup, no upload, no record. *)
Theorem X5_unauthorized_batch
    (E : Collaborators) (req : BatchRequest) (w : World)
    (file : option MulterFile) :
  upload req = inr file ->
  req_user req = None \/ req_user req = Some [] ->
  let w' := run (sendBatchMessages E req) w in
  sent w' =
    Some {| status := 401;
            body := {| success := false;
                       message := Some "Unauthorized"%string;
                       error := None; messageIds := None; data := None |} |} /\
  trace w' = trace w /\
  messages w' = messages w /\
  pending w' = pending w /\
  listeners w' = listeners w.
Proof.
  intros Hup Hu w'. subst w'.
  assert (Ha : authenticated (req_user req) = None)
    by (destruct Hu as [-> | ->]; reflexivity).
  rewrite (run_unauthorized E req w file Hup Ha). repeat split.
Qed.

Lemma X5_witness_anonymous :
  let w' :=
    run (sendBatchMessages Scenario.E
           (Scenario.request None "1555000111" "Hello" None None))
      Scenario.world in
  sent w' =
    Some {| status := 401;
            body := {| success := false;
                       message := Some "Unauthorized"%string;
                       error := None; messageIds := None; data := None |} |} /\
  trace w' = trace Scenario.world /\
  messages w' = messages Scenario.world /\
  pending w' = pending Scenario.world /\
  listeners w' = listeners Scenario.world.
Proof.
  apply (X5_unauthorized_batch Scenario.E
           (Scenario.request None "1555000111" "Hello" None None)
           Scenario.world None).
  - reflexivity.
  - left. reflexivity.
Defined.

(** X6: Every run of [sendBatchMessages] answers, with 200, 400, 401 or
    500.  A 200 means exactly one [createMessages] call and one batch handed
    to the runtime, with one more promise pending and one more progress
    listener.  A 400 or a 401 means that nothing was asked of the storage
    or of the runtime: no [createMessages] call, no batch, no new row, no
    new promise and no new listener.  (A 500 is the answer of the outer
    catch, which also ends a run in which a call made after the checks
    fails; nothing is stated about it.) *)
Theorem X6_answer_and_effects
    (E : Collaborators) (req : BatchRequest) (w : World) :
  let w' := run (sendBatchMessages E req) w in
  exists code,
    status_sent w' = Some code /\
    (code = 200 \/ code = 400 \/ code = 401 \/ code = 500) /\
    (code = 200 ->
     calls is_create w' = S (calls is_create w) /\
     calls is_dispatch w' = S (calls is_dispatch w) /\
     List.length (pending w') = S (List.length (pending w)) /\
     List.length (listeners w') = S (List.length (listeners w))) /\
    (code = 400 \/ code = 401 ->
     messages w' = messages w /\
     calls is_create w' = calls is_create w /\
     calls is_dispatch w' = calls is_dispatch w /\
     pending w' = pending w /\
     listeners w' = listeners w).
Proof.
  cbv zeta.
  batch_paths E req w.
  - exists 500. repeat split; auto; try discriminate.
    all: intros [H|H]; discriminate.
  - exists 400. repeat split; auto; discriminate.
  - media_cases E (select_media file (body_mediaUrl req)) w;
      solve
        [ exists 200; unfold status_sent, calls; simpl;
          repeat split; auto; try congruence;
          try (intros [H|H]; discriminate);
          rewrite ?length_app; simpl; lia
        | exists 400; repeat split; auto; discriminate ].
  - exists 400.
    destruct (first_client userId w) as [c|];
      [destruct (ClientStatus_eqb (Client.status c) CONNECTED)|];
      repeat split; auto; discriminate.
  - exists 401. repeat split; auto; discriminate.
Qed.

(** X7: When the request carries a file and the storage refuses the upload
    of its bytes with an error, a request that passed the earlier checks is
    answered 400 "Failed to process media" carrying that error; the error is
    logged after the one upload attempt and nothing is created or handed to
    the runtime. *)
Theorem X7_storage_rejects_file
    (E : Collaborators) (req : BatchRequest) (w : World)
    (f : MulterFile) (userId : jsstring) (c : Client.t)
    (inst : WhatsAppInstance) (e : JsError) :
  upload req = inr (Some f) ->
  authenticated (req_user req) = Some userId ->
  invalid_input req = false ->
  ready E userId w = Some (c, inst) ->
  uploadToCloudinary E (buffer f) = Rejected e ->
  let w' := run (sendBatchMessages E req) w in
  sent w' =
    Some {| status := 400;
            body := failure_with "Failed to process media" (ErrorObject e) |} /\
  trace w' =
    LoggerError "Failed to process media:" (Some e)
    :: CloudinaryUpload (buffer f) :: trace w /\
  messages w' = messages w /\
  pending w' = pending w.
Proof.
  intros Hup Hu Hin Hr Hcl w'. subst w'.
  rewrite (run_ready E req w (Some f) userId c inst Hup Hu Hin Hr).
  simpl select_media. rewrite process_media_buffer, Hcl. repeat split.
Qed.

Lemma X7_witness_storage_down :
  let E' :=
    {| fetch := fetch Scenario.E;
       uploadToCloudinary := fun _ => Rejected (Error "storage down");
       getOptimizedUrl := getOptimizedUrl Scenario.E;
       getWhatsAppInstance := getWhatsAppInstance Scenario.E;
       uuid := uuid Scenario.E |} in
  let e := Error "storage down" in
  let w' := run (sendBatchMessages E' Scenario.both_media) Scenario.world in
  sent w' =
    Some {| status := 400;
            body := failure_with "Failed to process media" (ErrorObject e) |} /\
  trace w' =
    LoggerError "Failed to process media:" (Some e)
    :: CloudinaryUpload (part_data Scenario.png) :: trace Scenario.world /\
  messages w' = messages Scenario.world /\
  pending w' = pending Scenario.world.
Proof.
  apply (X7_storage_rejects_file
           {| fetch := fetch Scenario.E;
              uploadToCloudinary := fun _ => Rejected (Error "storage down");
              getOptimizedUrl := getOptimizedUrl Scenario.E;
              getWhatsAppInstance := getWhatsAppInstance Scenario.E;
              uuid := uuid Scenario.E |}
           Scenario.both_media Scenario.world
           {| mimetype := part_mimetype Scenario.png;
              buffer := part_data Scenario.png |}
           Scenario.alice
           (Scenario.session_of "client-a" "user-a" CONNECTED)
           (Scenario.failing_instance (js "client-a"))
           (Error "storage down")).
  - reflexivity.
  - reflexivity.
  - reflexivity.
  - reflexivity.
  - reflexivity.
Defined.

(** X8: When the request carries a media URL and no file, and the fetch
    rejects, or reading the body of a successful response rejects, or the
    storage refuses the fetched bytes, a request that passed the earlier
    checks is answered 400 "Failed to process media" carrying that very
    error; the URL was fetched once, and nothing is created. *)
Theorem X8_url_media_failures
    (E : Collaborators) (req : BatchRequest) (w : World)
    (userId : jsstring) (c : Client.t) (inst : WhatsAppInstance)
    (url : jsstring) (e : JsError) :
  upload req = inr None ->
  authenticated (req_user req) = Some userId ->
  invalid_input req = false ->
  ready E userId w = Some (c, inst) ->
  body_mediaUrl req = Some url ->
  url <> [] ->
  fetch E url = Rejected e \/
  fetch E url = Fulfilled (true, Rejected e) \/
  (exists bytes,
      fetch E url = Fulfilled (true, Fulfilled bytes) /\
      uploadToCloudinary E bytes = Rejected e) ->
  let w' := run (sendBatchMessages E req) w in
  sent w' =
    Some {| status := 400;
            body := failure_with "Failed to process media" (ErrorObject e) |} /\
  calls is_fetch w' = S (calls is_fetch w) /\
  In (FetchCall url) (trace w') /\
  messages w' = messages w /\
  calls is_create w' = calls is_create w /\
  pending w' = pending w.
Proof.
  intros Hup Hu Hin Hr Hurl Hne Hfail w'. subst w'.
  rewrite (run_ready E req w None userId c inst Hup Hu Hin Hr).
  assert (Ht : truthy url = true) by (destruct url; [congruence | reflexivity]).
  unfold select_media. rewrite Hurl, Ht.
  rewrite (process_media_url E url w Ht).
  destruct Hfail as [Hf | [Hf | (bytes & Hf & Hcl)]]; rewrite Hf.
  - repeat split. simpl. auto.
  - repeat split. simpl. auto.
  - rewrite Hcl. repeat split. simpl. auto.
Qed.

(** X9: When the request carries a media URL and no file, the fetch
    succeeds and the storage accepts the fetched bytes, a request that
    passed the earlier checks runs exactly: fetch the URL, upload the
    fetched bytes, create the records with the optimized URL of that upload
    (not the URL supplied), hand the batch over and acknowledge. *)
Theorem X9_url_media_rehosted
    (E : Collaborators) (req : BatchRequest) (w : World)
    (userId : jsstring) (c : Client.t) (inst : WhatsAppInstance)
    (url : jsstring) (bytes : Buffer) (pid : jsstring) :
  upload req = inr None ->
  authenticated (req_user req) = Some userId ->
  invalid_input req = false ->
  ready E userId w = Some (c, inst) ->
  body_mediaUrl req = Some url ->
  url <> [] ->
  fetch E url = Fulfilled (true, Fulfilled bytes) ->
  uploadToCloudinary E bytes = Fulfilled pid ->
  let w' := run (sendBatchMessages E req) w in
  let records :=
    new_records E (Client.id c) (parse_content req)
      (Some (getOptimizedUrl E pid)) (now w) (uuids_used w)
      (parse_numbers req) in
  trace w' =
    [ProcessBatchCall (instance_of inst) records;
     OnProgress (instance_of inst);
     CreateMessagesCall (Client.id c) (parse_numbers req) (parse_content req)
       (Some (getOptimizedUrl E pid));
     CloudinaryUpload bytes;
     FetchCall url] ++ trace w /\
  messages w' = messages w ++ records /\
  status_sent w' = Some 200.
Proof.
  intros Hup Hu Hin Hr Hurl Hne Hf Hcl w'. subst w'.
  rewrite (run_ready E req w None userId c inst Hup Hu Hin Hr).
  assert (Ht : truthy url = true) by (destruct url; [congruence | reflexivity]).
  unfold select_media. rewrite Hurl, Ht.
  rewrite (process_media_url E url w Ht), Hf, Hcl. repeat split.
Qed.

Lemma X8_witness_storage_refuses_fetched :
  let e := Error "storage down" in
  let w' :=
    run (sendBatchMessages Scenario.storage_down Scenario.with_url)
      Scenario.world in
  sent w' =
    Some {| status := 400;
            body := failure_with "Failed to process media" (ErrorObject e) |} /\
  calls is_fetch w' = S (calls is_fetch Scenario.world) /\
  In (FetchCall (js "http://ok")) (trace w') /\
  messages w' = messages Scenario.world /\
  calls is_create w' = calls is_create Scenario.world /\
  pending w' = pending Scenario.world.
Proof.
  apply (X8_url_media_failures Scenario.storage_down Scenario.with_url
           Scenario.world Scenario.alice
           (Scenario.session_of "client-a" "user-a" CONNECTED)
           (Scenario.failing_instance (js "client-a"))
           (js "http://ok") (Error "storage down")).
  - reflexivity.
  - reflexivity.
  - reflexivity.
  - reflexivity.
  - reflexivity.
  - vm_compute. discriminate.
  - right. right. exists []. split; reflexivity.
Defined.

Lemma X9_witness_served_url :
  let c := Scenario.session_of "client-a" "user-a" CONNECTED in
  let inst := Scenario.failing_instance (js "client-a") in
  let w' :=
    run (sendBatchMessages Scenario.E Scenario.with_url) Scenario.world in
  let records :=
    new_records Scenario.E (Client.id c) (parse_content Scenario.with_url)
      (Some (getOptimizedUrl Scenario.E (js "pid")))
      (now Scenario.world) (uuids_used Scenario.world)
      (parse_numbers Scenario.with_url) in
  trace w' =
    [ProcessBatchCall (instance_of inst) records;
     OnProgress (instance_of inst);
     CreateMessagesCall (Client.id c) (parse_numbers Scenario.with_url)
       (parse_content Scenario.with_url)
       (Some (getOptimizedUrl Scenario.E (js "pid")));
     CloudinaryUpload [];
     FetchCall (js "http://ok")] ++ trace Scenario.world /\
  messages w' = messages Scenario.world ++ records /\
  status_sent w' = Some 200.
Proof.
  apply (X9_url_media_rehosted Scenario.E Scenario.with_url Scenario.world
           Scenario.alice
           (Scenario.session_of "client-a" "user-a" CONNECTED)
           (Scenario.failing_instance (js "client-a"))
           (js "http://ok") [] (js "pid")).
  - reflexivity.
  - reflexivity.
  - reflexivity.
  - reflexivity.
  - reflexivity.
  - vm_compute. discriminate.
  - reflexivity.
  - reflexivity.
Defined.

(** ** Progress listeners (lines 139-145) *)




(** ** [getMessages], on every input *)

Lemma In_firstn {A} (n : nat) (l : list A) (x : A) :
  In x (firstn n l) -> In x l.
Proof.
  intros H. rewrite <- (firstn_skipn n l). apply in_or_app. now left.
Qed.

Lemma In_skipn {A} (n : nat) (l : list A) (x : A) :
  In x (skipn n l) -> In x l.
Proof.
  intros H. rewrite <- (firstn_skipn n l). apply in_or_app. now right.
Qed.

Lemma paginate_incl {A} (skip take : Z) (l ms : list A) :
  paginate skip take l = Fulfilled ms -> incl ms l.
Proof.
  unfold paginate.
  destruct (skip <? 0); [discriminate|].
  destruct (0 <=? take); intros H; injection H as <-; intros x Hx.
  - apply In_firstn in Hx. now apply In_skipn in Hx.
  - apply in_rev in Hx. apply In_firstn in Hx. apply In_skipn in Hx.
    now apply in_rev in Hx.
Qed.

Lemma run_getMessages_any (req : ListRequest) (w : World)
    (userId : jsstring) (c : Client.t) :
  authenticated (list_user req) = Some userId ->
  first_client userId w = Some c ->
  let page := parseInt_or (query_page req) 1 in
  let limit := parseInt_or (query_limit req) 10 in
  run (getMessages req) w =
  match paginate ((page - 1) * limit) limit
          (orderBy_createdAt_desc (tie_order w)
             (filter (where_messages (Client.id c) (query_status req))
                (messages w))) with
  | Fulfilled ms =>
      set_sent
        {| status := 200;
           body := page_of ms page limit
                     (count (Client.id c) (query_status req) w) |} w
  | Rejected e => list_crashed e w
  end.
Proof.
  intros Hu Hc page limit.
  unfold run, getMessages, try_catch, bind. rewrite Hu. cbv zeta.
  unfold findFirst_client. rewrite Hc.
  unfold transaction_findMany_count, findMany.
  fold page. fold limit.
  now destruct (paginate ((page - 1) * limit) limit
                  (orderBy_createdAt_desc (tie_order w)
                     (filter (where_messages (Client.id c) (query_status req))
                        (messages w)))).
Qed.

Lemma run_getMessages_unauthorized (req : ListRequest) (w : World) :
  authenticated (list_user req) = None ->
  run (getMessages req) w = set_sent (refused 401 "Unauthorized") w.
Proof.
  intros Hu. unfold run, getMessages, try_catch, bind. now rewrite Hu.
Qed.

Lemma run_getMessages_no_client (req : ListRequest) (w : World)
    (userId : jsstring) :
  authenticated (list_user req) = Some userId ->
  first_client userId w = None ->
  run (getMessages req) w = set_sent (refused 404 "Client not found") w.
Proof.
  intros Hu Hc. unfold run, getMessages, try_catch, bind. rewrite Hu.
  cbv zeta. unfold findFirst_client. now rewrite Hc.
Qed.

(** X11: A user with no client session who lists messages is answered 404
    "Client not found", with no data, whatever the page, limit and status
    asked for; nothing is logged. *)
Theorem X11_list_without_session
    (req : ListRequest) (w : World) (userId : jsstring) :
  authenticated (list_user req) = Some userId ->
  first_client userId w = None ->
  let w' := run (getMessages req) w in
  sent w' =
    Some {| status := 404;
            body := {| success := false;
                       message := Some "Client not found"%string;
                       error := None; messageIds := None; data := None |} |} /\
  trace w' = trace w.
Proof.
  intros Hu Hc w'. subst w'.
  rewrite (run_getMessages_no_client req w userId Hu Hc). repeat split.
Qed.

Lemma X11_witness_carol :
  let w' :=
    run (getMessages (list_request (Some Scenario.carol) None None None))
      Scenario.world in
  sent w' =
    Some {| status := 404;
            body := {| success := false;
                       message := Some "Client not found"%string;
                       error := None; messageIds := None; data := None |} |} /\
  trace w' = trace Scenario.world.
Proof.
  apply (X11_list_without_session
           (list_request (Some Scenario.carol) None None None)
           Scenario.world Scenario.carol).
  - reflexivity.
  - reflexivity.
Defined.

(** X12: Whatever a listing response carries was read from the session of
    the requesting user: every message on the page is a row of the table
    that belongs to the user's first session and, when a status was asked
    for, has that status; the total is the number of such rows.  This holds
    for every page and limit, also the ones the query parsing falls back
    from. *)
Theorem X12_listing_is_scoped
    (req : ListRequest) (w : World) (ms : list Message.t) (pg : Pagination) :
  page_sent (run (getMessages req) w) = Some (ms, pg) ->
  exists userId c,
    authenticated (list_user req) = Some userId /\
    first_client userId w = Some c /\
    Client.userId c = userId /\
    Forall
      (fun m =>
         In m (messages w) /\
         Message.clientId m = Client.id c /\
         (forall s, query_status req = Some s -> Message.status m = s))
      ms /\
    total pg =
      Z.of_nat
        (List.length
           (filter (where_messages (Client.id c) (query_status req))
              (messages w))).
Proof.
  destruct (authenticated (list_user req)) as [userId|] eqn:Hu.
  - destruct (first_client userId w) as [c|] eqn:Hc.
    + rewrite (run_getMessages_any req w userId c Hu Hc).
      destruct (paginate _ _ _) as [ms'|e] eqn:Hp; [|discriminate].
      unfold page_sent. simpl. intros H. injection H as <- <-.
      exists userId, c. repeat split; trivial.
      * unfold first_client in Hc. apply find_some in Hc as (_ & Hc).
        now apply jsstring_eqb_eq in Hc.
      * apply Forall_forall. intros m Hm.
        apply (paginate_incl _ _ _ _ Hp) in Hm.
        apply (Permutation_in _ (Permutation_sym (orderBy_perm _ _))) in Hm.
        apply filter_In in Hm as (Hin & Hw).
        apply where_messages_spec in Hw as (H1 & H2). auto.
    + rewrite (run_getMessages_no_client req w userId Hu Hc). discriminate.
  - rewrite (run_getMessages_unauthorized req w Hu). discriminate.
Qed.

Lemma X12_witness_second_page :
  exists ms pg,
    page_sent (run (getMessages Scenario.second_page) Scenario.world25)
    = Some (ms, pg) /\
    exists userId c,
      authenticated (list_user Scenario.second_page) = Some userId /\
      first_client userId Scenario.world25 = Some c /\
      Client.userId c = userId /\
      Forall
        (fun m =>
           In m (messages Scenario.world25) /\
           Message.clientId m = Client.id c /\
           (forall s, query_status Scenario.second_page = Some s ->
                      Message.status m = s))
        ms /\
      total pg =
        Z.of_nat
          (List.length
             (filter (where_messages (Client.id c)
                        (query_status Scenario.second_page))
                (messages Scenario.world25))).
Proof.
  eexists. eexists. split.
  - vm_compute. reflexivity.
  - apply (X12_listing_is_scoped Scenario.second_page Scenario.world25).
    vm_compute. reflexivity.
Defined.

Lemma page_length {A} (l p total : Z) (L : list A) :
  1 <= l -> 1 <= p -> total = Z.of_nat (List.length L) ->
  Z.of_nat
    (List.length (firstn (Z.to_nat l) (skipn (Z.to_nat ((p - 1) * l)) L)))
  = Z.min l (Z.max 0 (total - (p - 1) * l)).
Proof.
  intros Hl Hp ->. rewrite length_firstn, length_skipn. nia.
Qed.

(** X13: For a page p >= 1 and a limit l >= 1 (page, limit and offset
    within the 32-bit integers) the page holds
    min(l, max(0, total - (p-1)*l)) messages: full pages, then the
    remainder on the last one, then nothing; a page after totalPages is
    empty, and totalPages is 0 exactly when the session has no matching
    message. *)
Theorem X13_page_sizes
    (req : ListRequest) (w : World) (userId : jsstring) (c : Client.t) :
  authenticated (list_user req) = Some userId ->
  first_client userId w = Some c ->
  let p := parseInt_or (query_page req) 1 in
  let l := parseInt_or (query_limit req) 10 in
  1 <= p <= paging_bound ->
  1 <= l <= paging_bound ->
  (p - 1) * l <= paging_bound ->
  exists ms pg,
    page_sent (run (getMessages req) w) = Some (ms, pg) /\
    Z.of_nat (List.length ms) = Z.min l (Z.max 0 (total pg - (p - 1) * l)) /\
    (totalPages pg < p -> ms = []) /\
    (totalPages pg = 0 <-> total pg = 0) /\
    0 <= totalPages pg <= total pg.
Proof.
  intros Hu Hc p l (Hp & _) (Hl & _) _.
  rewrite (run_getMessages req w userId c Hu Hc Hp Hl).
  fold p. fold l. unfold page_sent, page_of. simpl.
  eexists. eexists. split; [reflexivity|]. simpl.
  set (L := orderBy_createdAt_desc (tie_order w)
              (filter (where_messages (Client.id c) (query_status req))
                 (messages w))).
  assert (Hlen : count (Client.id c) (query_status req) w
                 = Z.of_nat (List.length L)).
  { unfold count, L. f_equal. apply Permutation_length, orderBy_perm. }
  pose proof (page_length l p _ L Hl Hp Hlen) as Hpl.
  pose proof (Math_ceil_div_spec
                (count (Client.id c) (query_status req) w) l ltac:(lia))
    as Hceil.
  assert (Hnn : 0 <= count (Client.id c) (query_status req) w)
    by (rewrite Hlen; lia).
  repeat split.
  - exact Hpl.
  - intros Hlast.
    assert (Hz : Z.of_nat
                   (List.length
                      (firstn (Z.to_nat l)
                         (skipn (Z.to_nat ((p - 1) * l)) L))) = 0)
      by (rewrite Hpl; nia).
    destruct (firstn (Z.to_nat l) (skipn (Z.to_nat ((p - 1) * l)) L));
      [reflexivity | simpl in Hz; lia].
  - nia.
  - nia.
  - nia.
  - nia.
Qed.

Lemma X13_witness_second_page :
  let p := 2 in
  let l := 10 in
  exists ms pg,
    page_sent (run (getMessages Scenario.second_page) Scenario.world25)
    = Some (ms, pg) /\
    Z.of_nat (List.length ms) = Z.min l (Z.max 0 (total pg - (p - 1) * l)) /\
    (totalPages pg < p -> ms = []) /\
    (totalPages pg = 0 <-> total pg = 0) /\
    0 <= totalPages pg <= total pg.
Proof.
  apply (X13_page_sizes Scenario.second_page Scenario.world25 Scenario.alice
           (Scenario.session_of "client-a" "user-a" CONNECTED)).
  - reflexivity.
  - reflexivity.
  - vm_compute. split; discriminate.
  - vm_compute. split; discriminate.
  - vm_compute. discriminate.
Defined.

Lemma firstn_then_firstn {A} (a b : nat) (M : list A) :
  firstn a M ++ firstn b (skipn a M) = firstn (a + b) M.
Proof.
  revert M. induction a as [|a IH]; intros M; simpl; trivial.
  destruct M as [|x M]; simpl.
  - now rewrite firstn_nil.
  - now rewrite IH.
Qed.

Lemma firstn_two_pages {A} (n s : nat) (L : list A) :
  firstn n (skipn s L) ++ firstn n (skipn (s + n) L)
  = firstn (n + n) (skipn s L).
Proof.
  replace (s + n)%nat with (n + s)%nat by lia.
  rewrite <- skipn_skipn. apply firstn_then_firstn.
Qed.

(** When no two rows have the same creation time there is one descending
    order only, whatever the database chooses among ties. *)
Lemma sorted_perm_unique (l1 l2 : list Message.t) :
  Permutation l1 l2 ->
  StronglySorted newer_first l1 ->
  StronglySorted newer_first l2 ->
  NoDup (map Message.createdAt l1) ->
  l1 = l2.
Proof.
  revert l2. induction l1 as [|a l1 IH]; intros l2 Hperm S1 S2 Hnd.
  - apply Permutation_nil in Hperm. now subst.
  - destruct l2 as [|b l2].
    { apply Permutation_sym, Permutation_nil in Hperm. discriminate. }
    inversion S1 as [|? ? S1' Ha]; subst.
    inversion S2 as [|? ? S2' Hb]; subst.
    inversion Hnd as [|? ? Hnotin Hnd']; subst.
    assert (Heq : a = b).
    { assert (Hain : In a (b :: l2))
        by (eapply Permutation_in; [exact Hperm | now left]).
      assert (Hbin : In b (a :: l1))
        by (eapply Permutation_in;
            [apply Permutation_sym; exact Hperm | now left]).
      destruct Hain as [<-|Hain]; trivial.
      destruct Hbin as [->|Hbin]; trivial.
      exfalso. rewrite Forall_forall in Ha, Hb.
      pose proof (Ha b Hbin) as H1. pose proof (Hb a Hain) as H2.
      unfold newer_first in H1, H2. apply Hnotin.
      replace (Message.createdAt a) with (Message.createdAt b) by lia.
      now apply in_map. }
    subst b. f_equal. apply IH; trivial.
    now apply Permutation_cons_inv in Hperm.
Qed.

(** X14: Two listings of the same user, filter and limit l >= 1 for the
    pages p >= 1 and p + 1 (within the 32-bit integers), taken over the same
    tables, each in whatever order the database gives to equal creation
    times: when the matching rows have pairwise distinct creation times,
    the two answers are the two halves of one stretch of 2*l rows of the
    descending listing, so consecutive pages neither overlap nor leave a
    gap, and they report the same total and page count. *)
Theorem X14_consecutive_pages
    (user pa pb limit : option jsstring) (st : option MessageStatus)
    (wA wB : World) (userId : jsstring) (c : Client.t) :
  clients wB = clients wA ->
  messages wB = messages wA ->
  authenticated user = Some userId ->
  first_client userId wA = Some c ->
  let p := parseInt_or pa 1 in
  let l := parseInt_or limit 10 in
  1 <= p ->
  p + 1 <= paging_bound ->
  1 <= l <= paging_bound ->
  p * l <= paging_bound ->
  parseInt_or pb 1 = p + 1 ->
  let matching :=
    filter (where_messages (Client.id c) st) (messages wA) in
  NoDup (map Message.createdAt matching) ->
  exists ordered msA pgA msB pgB,
    Permutation matching ordered /\
    StronglySorted newer_first ordered /\
    page_sent (run (getMessages (list_request user pa limit st)) wA)
    = Some (msA, pgA) /\
    page_sent (run (getMessages (list_request user pb limit st)) wB)
    = Some (msB, pgB) /\
    msA ++ msB
    = firstn (Z.to_nat (2 * l)) (skipn (Z.to_nat ((p - 1) * l)) ordered) /\
    total pgA = total pgB /\
    totalPages pgA = totalPages pgB.
Proof.
  intros Hcl Hms Hu Hc p l Hp _ (Hl & _) _ Hpb matching Hnd.
  replace (Z.to_nat (2 * l)) with (Z.to_nat l + Z.to_nat l)%nat by lia.
  assert (HcB : first_client userId wB = Some c)
    by (unfold first_client in *; now rewrite Hcl).
  rewrite (run_getMessages (list_request user pa limit st) wA userId c Hu Hc
             Hp Hl).
  assert (Hp' : 1 <= parseInt_or (query_page (list_request user pb limit st)) 1)
    by (simpl; lia).
  rewrite (run_getMessages (list_request user pb limit st) wB userId c Hu HcB
             Hp' Hl).
  simpl query_page. simpl query_limit. simpl query_status.
  fold p. fold l. rewrite Hpb, Hms. fold matching.
  assert (Hcount : count (Client.id c) st wB = count (Client.id c) st wA)
    by (unfold count; now rewrite Hms).
  rewrite Hcount.
  pose proof (orderBy_perm (tie_order wA) matching) as PA.
  pose proof (orderBy_perm (tie_order wB) matching) as PB.
  assert (Hsame : orderBy_createdAt_desc (tie_order wB) matching
                  = orderBy_createdAt_desc (tie_order wA) matching).
  { apply sorted_perm_unique.
    - eapply perm_trans; [apply Permutation_sym; exact PB | exact PA].
    - apply orderBy_sorted.
    - apply orderBy_sorted.
    - apply (Permutation_NoDup (Permutation_map Message.createdAt PB) Hnd). }
  rewrite Hsame.
  unfold page_sent, page_of. simpl.
  exists (orderBy_createdAt_desc (tie_order wA) matching).
  do 4 eexists. split; [exact PA|]. split; [apply orderBy_sorted|].
  split; [reflexivity|]. split; [reflexivity|]. simpl.
  repeat split.
  replace (Z.to_nat ((p + 1 - 1) * l))
    with (Z.to_nat ((p - 1) * l) + Z.to_nat l)%nat
    by (rewrite <- Z2Nat.inj_add by nia; f_equal; ring).
  now rewrite firstn_two_pages.
Qed.

Lemma X14_witness_pages_2_and_3 :
  let c := Scenario.session_of "client-a" "user-a" CONNECTED in
  let p := 2 in
  let l := 10 in
  let matching :=
    filter (where_messages (Client.id c) None) (messages Scenario.world25) in
  exists ordered msA pgA msB pgB,
    Permutation matching ordered /\
    StronglySorted newer_first ordered /\
    page_sent
      (run (getMessages
              (list_request (Some Scenario.alice) (Some (js "2"))
                 (Some (js "10")) None)) Scenario.world25)
    = Some (msA, pgA) /\
    page_sent
      (run (getMessages
              (list_request (Some Scenario.alice) (Some (js "3"))
                 (Some (js "10")) None)) Scenario.world25_reordered)
    = Some (msB, pgB) /\
    msA ++ msB
    = firstn (Z.to_nat (2 * l)) (skipn (Z.to_nat ((p - 1) * l)) ordered) /\
    total pgA = total pgB /\
    totalPages pgA = totalPages pgB.
Proof.
  apply (X14_consecutive_pages (Some Scenario.alice) (Some (js "2"))
           (Some (js "3")) (Some (js "10")) None Scenario.world25
           Scenario.world25_reordered
           Scenario.alice (Scenario.session_of "client-a" "user-a" CONNECTED)).
  - reflexivity.
  - reflexivity.
  - reflexivity.
  - reflexivity.
  - vm_compute. discriminate.
  - vm_compute. discriminate.
  - vm_compute. split; discriminate.
  - vm_compute. discriminate.
  - reflexivity.
  - vm_compute. repeat constructor; simpl; intuition discriminate.
Defined.

(** X15: A [page] or [limit] parameter that is not a number, or is 0, is
    treated as if it were absent (page 1, limit 10): the whole run is the
    same.  In particular the limit the handler divides by is never 0. *)
Theorem X15_query_defaults
    (user page limit : option jsstring) (st : option MessageStatus)
    (s : jsstring) (w : World) :
  parseInt s = None \/ parseInt s = Some 0 ->
  run (getMessages (list_request user (Some s) limit st)) w
  = run (getMessages (list_request user None limit st)) w /\
  run (getMessages (list_request user page (Some s) st)) w
  = run (getMessages (list_request user page None st)) w /\
  parseInt_or limit 10 <> 0.
Proof.
  intros Hs.
  assert (Hd : forall d, parseInt_or (Some s) d = d)
    by (intros d; unfold parseInt_or; destruct Hs as [-> | ->]; reflexivity).
  repeat split.
  - unfold run, getMessages, list_request.
    cbn [list_user query_page query_limit query_status]. now rewrite Hd.
  - unfold run, getMessages, list_request.
    cbn [list_user query_page query_limit query_status]. now rewrite Hd.
  - unfold parseInt_or. destruct limit as [t|]; [|discriminate].
    destruct (parseInt t) as [[|n|n]|]; discriminate.
Qed.

Lemma X15_witness_not_a_number :
  run (getMessages
         (list_request (Some Scenario.alice) (Some (js "abc")) None None))
    Scenario.world25
  = run (getMessages (list_request (Some Scenario.alice) None None None))
      Scenario.world25 /\
  run (getMessages
         (list_request (Some Scenario.alice) None (Some (js "abc")) None))
    Scenario.world25
  = run (getMessages (list_request (Some Scenario.alice) None None None))
      Scenario.world25 /\
  parseInt_or None 10 <> 0.
Proof.
  apply (X15_query_defaults (Some Scenario.alice) None None None (js "abc")
           Scenario.world25).
  left. reflexivity.
Defined.

(** ** [getMessageStatus], on every input *)

Lemma run_getMessageStatus (req : StatusRequest) (w : World)
    (userId : jsstring) :
  authenticated (status_user req) = Some userId ->
  run (getMessageStatus req) w =
  match fst (findFirst_message (params_id req) userId w) with
  | Next (Some m) => set_sent {| status := 200; body := found m |} w
  | _ => set_sent (refused 404 "Message not found") w
  end.
Proof.
  intros Hu. unfold run, getMessageStatus, try_catch, bind. rewrite Hu.
  cbv zeta. unfold findFirst_message. simpl.
  now destruct (find _ (messages w)).
Qed.

Lemma run_getMessageStatus_unauthorized (req : StatusRequest) (w : World) :
  authenticated (status_user req) = None ->
  run (getMessageStatus req) w = set_sent (refused 401 "Unauthorized") w.
Proof.
  intros Hu. unfold run, getMessageStatus, try_catch, bind. now rewrite Hu.
Qed.

(** X16: Whatever record a status response carries, it is a row of the
    table with the id asked for, and it belongs to a session of the
    requesting user; the answer is then a 200.  No assumption on the tables
    is needed. *)
Theorem X16_status_record_is_owned
    (req : StatusRequest) (w : World) (m : Message.t) :
  record_sent (run (getMessageStatus req) w) = Some m ->
  exists userId,
    authenticated (status_user req) = Some userId /\
    In m (messages w) /\
    Message.id m = params_id req /\
    owned_by w userId m /\
    status_sent (run (getMessageStatus req) w) = Some 200.
Proof.
  destruct (authenticated (status_user req)) as [userId|] eqn:Hu.
  - rewrite (run_getMessageStatus req w userId Hu).
    unfold findFirst_message. simpl.
    match goal with
    | |- context [find ?f (messages w)] =>
        destruct (find f (messages w)) as [x|] eqn:Hfind
    end; [|discriminate].
    unfold record_sent. simpl. intros H. injection H as <-.
    apply find_some in Hfind as (Hin & Hpred).
    apply andb_true_iff in Hpred as (Hid & Hex).
    apply jsstring_eqb_eq in Hid.
    apply existsb_exists in Hex as (c & Hc & Hpred).
    apply andb_true_iff in Hpred as (Hcid & Huid).
    apply jsstring_eqb_eq in Hcid, Huid.
    exists userId. repeat split; trivial.
    exists c. auto.
  - rewrite (run_getMessageStatus_unauthorized req w Hu). discriminate.
Qed.

Lemma X16_witness_alice_asks :
  exists userId,
    authenticated (status_user Scenario.alice_asks) = Some userId /\
    In (Scenario.row "old-1" "client-a" SENT 10) (messages Scenario.world) /\
    Message.id (Scenario.row "old-1" "client-a" SENT 10)
    = params_id Scenario.alice_asks /\
    owned_by Scenario.world userId (Scenario.row "old-1" "client-a" SENT 10) /\
    status_sent (run (getMessageStatus Scenario.alice_asks) Scenario.world)
    = Some 200.
Proof.
  apply (X16_status_record_is_owned Scenario.alice_asks Scenario.world
           (Scenario.row "old-1" "client-a" SENT 10)).
  reflexivity.
Defined.

(** X17: A user who asks for a message of one of their own sessions, by
    its id, gets that record back with a 200, when ids are unique in the
    message table; the record is returned as stored and nothing changes. *)
Theorem X17_owner_reads_own_message
    (req : StatusRequest) (w : World) (userId : jsstring) (m : Message.t) :
  NoDup (map Message.id (messages w)) ->
  authenticated (status_user req) = Some userId ->
  In m (messages w) ->
  owned_by w userId m ->
  params_id req = Message.id m ->
  let w' := run (getMessageStatus req) w in
  sent w' =
    Some {| status := 200;
            body := {| success := true; message := None; error := None;
                       messageIds := None; data := Some (OneMessage m) |} |} /\
  messages w' = messages w /\
  trace w' = trace w.
Proof.
  intros Hids Hu Hm (c & Hc & Hcid & Huid) Hid w'. subst w'.
  rewrite (run_getMessageStatus req w userId Hu).
  unfold findFirst_message. simpl.
  match goal with
  | |- context [find ?f (messages w)] =>
      destruct (find f (messages w)) as [x|] eqn:Hfind
  end.
  - apply find_some in Hfind as (Hx & Hpred).
    apply andb_true_iff in Hpred as (Hxid & _).
    apply jsstring_eqb_eq in Hxid. rewrite Hid in Hxid.
    assert (x = m) as -> by (eapply NoDup_map_eq; eauto).
    repeat split.
  - exfalso.
    apply (find_none _ _ Hfind) in Hm.
    apply andb_false_iff in Hm as [Hf | Hf].
    + rewrite Hid, jsstring_eqb_refl in Hf. discriminate.
    + assert (Ht : existsb
                     (fun c0 =>
                        jsstring_eqb (Client.id c0) (Message.clientId m) &&
                        jsstring_eqb (Client.userId c0) userId)
                     (clients w) = true).
      { apply existsb_exists. exists c. split; trivial.
        rewrite Hcid, Huid, !jsstring_eqb_refl. reflexivity. }
      congruence.
Qed.

Lemma X17_witness_alice_asks :
  let m := Scenario.row "old-1" "client-a" SENT 10 in
  let w' := run (getMessageStatus Scenario.alice_asks) Scenario.world in
  sent w' =
    Some {| status := 200;
            body := {| success := true; message := None; error := None;
                       messageIds := None; data := Some (OneMessage m) |} |} /\
  messages w' = messages Scenario.world /\
  trace w' = trace Scenario.world.
Proof.
  apply (X17_owner_reads_own_message Scenario.alice_asks Scenario.world
           Scenario.alice (Scenario.row "old-1" "client-a" SENT 10)).
  - vm_compute. repeat constructor; simpl; intuition discriminate.
  - reflexivity.
  - simpl. left. reflexivity.
  - exists (Scenario.session_of "client-a" "user-a" CONNECTED).
    repeat split. simpl. left. reflexivity.
  - reflexivity.
Defined.

(** X18: The two read handlers only read: on every input they leave the
    client and message tables, the pending promises and the listeners as
    they were, call neither the storage, nor fetch, nor the runtime, and
    always answer (200, 401, 404 or 500). *)
Theorem X18_reads_change_nothing
    (lreq : ListRequest) (sreq : StatusRequest) (w : World) :
  let unchanged (w' : World) :=
    clients w' = clients w /\
    messages w' = messages w /\
    pending w' = pending w /\
    listeners w' = listeners w /\
    calls is_upload w' = calls is_upload w /\
    calls is_fetch w' = calls is_fetch w /\
    calls is_create w' = calls is_create w /\
    calls is_dispatch w' = calls is_dispatch w /\
    exists code,
      status_sent w' = Some code /\
      (code = 200 \/ code = 401 \/ code = 404 \/ code = 500) in
  unchanged (run (getMessages lreq) w) /\
  unchanged (run (getMessageStatus sreq) w).
Proof.
  cbv zeta. split.
  - destruct (authenticated (list_user lreq)) as [userId|] eqn:Hu.
    + destruct (first_client userId w) as [c|] eqn:Hc.
      * rewrite (run_getMessages_any lreq w userId c Hu Hc).
        destruct (paginate _ _ _); repeat split; eexists;
          (split; [reflexivity | auto]).
      * rewrite (run_getMessages_no_client lreq w userId Hu Hc).
        repeat split. eexists. split; [reflexivity | auto].
    + rewrite (run_getMessages_unauthorized lreq w Hu).
      repeat split. eexists. split; [reflexivity | auto].
  - destruct (authenticated (status_user sreq)) as [userId|] eqn:Hu.
    + rewrite (run_getMessageStatus sreq w userId Hu).
      destruct (fst (findFirst_message (params_id sreq) userId w))
        as [[m|]| |]; repeat split; eexists;
        (split; [reflexivity | auto]).
    + rewrite (run_getMessageStatus_unauthorized sreq w Hu).
      repeat split. eexists. split; [reflexivity | auto].
Qed.

(** X19: A read request with no usable user id (absent, or the empty
    string) is answered 401 "Unauthorized" before any table is read, by
    both read handlers, and nothing is logged. *)
Theorem X19_unauthorized_reads
    (lreq : ListRequest) (sreq : StatusRequest) (w : World) :
  list_user lreq = None \/ list_user lreq = Some [] ->
  status_user sreq = None \/ status_user sreq = Some [] ->
  let denied :=
    Some {| status := 401;
            body := {| success := false;
                       message := Some "Unauthorized"%string;
                       error := None; messageIds := None; data := None |} |} in
  sent (run (getMessages lreq) w) = denied /\
  trace (run (getMessages lreq) w) = trace w /\
  sent (run (getMessageStatus sreq) w) = denied /\
  trace (run (getMessageStatus sreq) w) = trace w.
Proof.
  intros Hl Hs.
  assert (Hla : authenticated (list_user lreq) = None)
    by (destruct Hl as [-> | ->]; reflexivity).
  assert (Hsa : authenticated (status_user sreq) = None)
    by (destruct Hs as [-> | ->]; reflexivity).
  cbv zeta.
  rewrite (run_getMessages_unauthorized lreq w Hla).
  rewrite (run_getMessageStatus_unauthorized sreq w Hsa).
  repeat split.
Qed.

Lemma X19_witness_anonymous :
  let lreq := list_request None (Some (js "2")) None None in
  let sreq := {| status_user := Some []; params_id := js "old-1" |} in
  let denied :=
    Some {| status := 401;
            body := {| success := false;
                       message := Some "Unauthorized"%string;
                       error := None; messageIds := None; data := None |} |} in
  sent (run (getMessages lreq) Scenario.world) = denied /\
  trace (run (getMessages lreq) Scenario.world) = trace Scenario.world /\
  sent (run (getMessageStatus sreq) Scenario.world) = denied /\
  trace (run (getMessageStatus sreq) Scenario.world) = trace Scenario.world.
Proof.
  apply (X19_unauthorized_reads
           (list_request None (Some (js "2")) None None)
           {| status_user := Some []; params_id := js "old-1" |}
           Scenario.world).
  - left. reflexivity.
  - right. reflexivity.
Defined.
